(** * The unsupervised anomaly-detection engine (backend/unsupervised_engine.py)

    A shallow embedding of [UnsupervisedAnomalyDetector]: the value coercer
    ([_is_numeric], [_to_numeric]), the feature selector and matrix builder
    ([_extract_features]) and the labelling loop of [detect_anomalies].

    Python values are modelled as the code uses them: a row is a [dict] from
    column names to cells, cells are strings or [None], numbers are binary64
    floats (Rocq's primitive floats), exceptions are threaded through an
    error monad, and the calls into numpy / scikit-learn are the fields of a
    record the engine is parameterised by. *)

From Stdlib Require Import ZArith String Ascii List Floats DecimalString.
From stdpp Require Import gmap strings list sorting.

Set Warnings "-inexact-float".

Local Open Scope string_scope.
Local Open Scope Z_scope.

(** ** Python built-ins used by the engine *)

(** [s.replace(c, '')] for a one-character [c]: every occurrence is dropped. *)
Fixpoint str_remove (c : ascii) (s : string) : string :=
  match s with
  | EmptyString => EmptyString
  | String a rest =>
      if Ascii.eqb a c then str_remove c rest else String a (str_remove c rest)
  end.

(** [str.lower()] on the ASCII letters.  The engine only tests the result
    for membership in [reserved_names]; on other characters [str.lower]
    yields non-ASCII text, or [k] for the Kelvin sign, which leaves that
    test as it is. *)
Definition lower_ascii (a : ascii) : ascii :=
  let n := nat_of_ascii a in
  if (65 <=? n)%nat && (n <=? 90)%nat then ascii_of_nat (n + 32) else a.

Fixpoint lower (s : string) : string :=
  match s with
  | EmptyString => EmptyString
  | String a rest => String (lower_ascii a) (lower rest)
  end.

(** *** [float(str)]

    CPython's [PyFloat_FromString]: surrounding white space is stripped,
    underscores are accepted between digits only, and what remains is either
    a decimal literal ([sign] digits [. digits] [e [sign] digits]), or one of
    [inf], [infinity], [nan] in any letter case, with an optional sign.  The
    decimal is rounded to the nearest binary64 value, ties to even, and
    overflows to an infinity.  Cells are read as ASCII text: the Unicode
    digits and spaces that CPython first maps to ASCII are not modelled. *)

Definition is_space (a : ascii) : bool :=
  let n := nat_of_ascii a in
  ((9 <=? n)%nat && (n <=? 13)%nat) || (n =? 32)%nat.

Definition is_digit (a : ascii) : bool :=
  let n := nat_of_ascii a in (48 <=? n)%nat && (n <=? 57)%nat.

Definition digit_value (a : ascii) : Z := Z.of_nat (nat_of_ascii a) - 48.

Fixpoint drop_spaces (cs : list ascii) : list ascii :=
  match cs with
  | c :: rest => if is_space c then drop_spaces rest else cs
  | [] => []
  end.

Definition strip_spaces (cs : list ascii) : list ascii :=
  rev (drop_spaces (rev (drop_spaces cs))).

(** The underscore pass: [prev] is the character before the current one. *)
Fixpoint drop_underscores (prev : option ascii) (cs : list ascii)
  : option (list ascii) :=
  let prev_is p := match prev with Some a => p a | None => false end in
  match cs with
  | [] => if prev_is (Ascii.eqb "_"%char) then None else Some []
  | c :: rest =>
      if Ascii.eqb c "_"%char then
        if prev_is is_digit then drop_underscores (Some c) rest else None
      else if prev_is (Ascii.eqb "_"%char) && negb (is_digit c) then None
      else cons c <$> drop_underscores (Some c) rest
  end.

Fixpoint span_digits (cs : list ascii) : list ascii * list ascii :=
  match cs with
  | c :: rest =>
      if is_digit c then let '(ds, tl) := span_digits rest in (c :: ds, tl)
      else ([], cs)
  | [] => ([], [])
  end.

Definition digits_to_Z (ds : list ascii) : Z :=
  fold_left (fun acc d => 10 * acc + digit_value d) ds 0.

Definition read_sign (cs : list ascii) : bool * list ascii :=
  match cs with
  | "-"%char :: rest => (true, rest)
  | "+"%char :: rest => (false, rest)
  | _ => (false, cs)
  end.

(** [m * 10^e] with sign [neg], rounded to nearest-even. *)
Definition decimal_to_float (neg : bool) (m e : Z) : float :=
  if m =? 0 then (if neg then neg_zero else zero)
  else if 0 <=? e then
    SF2Prim (binary_normalize prec emax ((if neg then - m else m) * 10 ^ e) 0 false)
  else
    SF2Prim (SFdiv prec emax (S754_finite neg (Z.to_pos m) 0)
                             (S754_finite false (Z.to_pos (10 ^ (- e))) 0)).

(** The exponent part; a malformed exponent leaves the text unconsumed. *)
Definition read_exponent (cs : list ascii) : Z * list ascii :=
  match cs with
  | c :: rest =>
      if Ascii.eqb (lower_ascii c) "e"%char then
        let '(eneg, rest') := read_sign rest in
        let '(ds, tl) := span_digits rest' in
        match ds with
        | [] => (0, cs)
        | _ => ((if eneg then - digits_to_Z ds else digits_to_Z ds), tl)
        end
      else (0, cs)
  | [] => (0, [])
  end.

Definition parse_decimal (cs : list ascii) : option float :=
  let '(neg, cs1) := read_sign cs in
  let '(int_ds, cs2) := span_digits cs1 in
  let '(frac_ds, cs3) :=
    match cs2 with
    | "."%char :: rest => span_digits rest
    | _ => ([], cs2)
    end in
  match (int_ds ++ frac_ds)%list with
  | [] => None
  | ds =>
      let '(e, cs4) := read_exponent cs3 in
      match cs4 with
      | [] => Some (decimal_to_float neg (digits_to_Z ds)
                                     (e - Z.of_nat (length frac_ds)))
      | _ => None
      end
  end.

Definition parse_inf_or_nan (cs : list ascii) : option float :=
  let '(neg, body) := read_sign cs in
  let word := lower (string_of_list_ascii body) in
  if String.eqb word "inf" || String.eqb word "infinity"
  then Some (if neg then neg_infinity else infinity)
  else if String.eqb word "nan" then Some (if neg then (- nan)%float else nan)
  else None.

(** [None] stands for the [ValueError] that [float] raises. *)
Definition py_float (s : string) : option float :=
  match drop_underscores None (strip_spaces (list_ascii_of_string s)) with
  | None => None
  | Some cs =>
      match parse_decimal cs with
      | Some f => Some f
      | None => parse_inf_or_nan cs
      end
  end.

(** *** [f'{x:.2f}']

    The exact value of the float, rounded half-to-even to two decimals. *)

Definition round_half_even_div (n d : Z) : Z :=
  let '(q, r) := Z.div_eucl n d in
  if (2 * r <? d) then q
  else if (d <? 2 * r) then q + 1
  else if Z.even q then q else q + 1.

Definition Z_to_string (n : Z) : string :=
  DecimalString.NilZero.string_of_uint (N.to_uint (Z.to_N n)).

Definition format_2f (x : float) : string :=
  match Prim2SF x with
  | S754_nan => "nan"
  | S754_infinity neg => if neg then "-inf" else "inf"
  | S754_zero neg => if neg then "-0.00" else "0.00"
  | S754_finite neg m e =>
      let hundredths :=
        if 0 <=? e then 100 * Z.pos m * 2 ^ e
        else round_half_even_div (100 * Z.pos m) (2 ^ (- e)) in
      let frac := hundredths mod 100 in
      (if neg then "-" else "") ++ Z_to_string (hundredths / 100) ++ "."
      ++ (if frac <? 10 then "0" else "") ++ Z_to_string frac
  end.

(** *** [round(x)] and [float(n)]

    [round] of a float is the nearest integer, ties to even; it raises on a
    NaN or an infinity ([None]).  [float] of a natural number is the nearest
    binary64 value. *)

Definition py_round (x : float) : option Z :=
  match Prim2SF x with
  | S754_zero _ => Some 0
  | S754_finite neg m e =>
      let n := if 0 <=? e then Z.pos m * 2 ^ e
               else round_half_even_div (Z.pos m) (2 ^ (- e)) in
      Some (if neg then - n else n)
  | S754_infinity _ | S754_nan => None
  end.

Definition float_of_nat (n : nat) : float :=
  SF2Prim (binary_normalize prec emax (Z.of_nat n) 0 false).

(** ** Data model *)

(** A cell as the parsers hand it over: a string, or [None]. *)
Inductive PyValue : Type :=
  | PyNone
  | PyStr (s : string).

(** A row is a [dict] from column name to cell. *)
Abbreviation Row := (gmap string PyValue).

(** [row.get(field)]: [None] when the key is absent. *)
Definition row_get (row : Row) (field : string) : PyValue :=
  default PyNone (row !! field).

Abbreviation matrix := (list (list float)).

(** The [evidence] dict of an anomaly record. *)
Record Evidence : Type := {
  algorithm : string;
  anomaly_score : float;
  key_feature : string;
  feature_value : float;
  z_score_approx : float
}.

(** The anomaly dict appended by [detect_anomalies]. *)
Record Anomaly : Type := {
  row_index : nat;
  anomaly_type : string;
  severity : string;
  description : string;
  raw_json : Row;
  evidence : Evidence
}.

(** [__init__]: the optional config entries and the detector's attributes. *)
Record Config : Type := {
  ml_contamination : option float;
  ml_min_samples : option Z
}.

Record UnsupervisedAnomalyDetector : Type := {
  contamination : float;
  min_samples : Z;
  random_state : Z
}.

Definition empty_config : Config :=
  {| ml_contamination := None; ml_min_samples := None |}.

Definition __init__ (config : option Config) : UnsupervisedAnomalyDetector :=
  let config := default empty_config config in
  {| contamination := default 0.05%float (ml_contamination config);
     min_samples := default 20 (ml_min_samples config);
     random_state := 42 |}.

(** ** Exceptions *)

(** The [Exception] subclasses the engine can meet inside its [try]. *)
Inductive PyExc : Type :=
  | IndexError
  | ValueError
  | LibraryError (message : string).

Inductive result (A : Type) : Type :=
  | Ok (a : A)
  | Raise (e : PyExc).
Arguments Ok {A} a.
Arguments Raise {A} e.

#[global] Instance result_ret : MRet result := fun _ a => Ok a.
#[global] Instance result_bind : MBind result := fun _ _ k m =>
  match m with
  | Ok a => k a
  | Raise e => Raise e
  end.

(** [try: body except Exception as e: handler]. *)
Definition try_except {A} (body : result A) (handler : PyExc -> result A)
  : result A :=
  match body with
  | Ok a => Ok a
  | Raise e => handler e
  end.

(** [l[i]] for a non-negative [i]: [IndexError] out of range. *)
Definition index {A} (l : list A) (i : nat) : result A :=
  match l !! i with
  | Some x => Ok x
  | None => Raise IndexError
  end.

(** ** What the engine calls outside its own module *)

(** [list(numeric_fields)]: the iteration order of a [set] of strings is the
    order of the hash table, which depends on the interpreter's string-hash
    seed (drawn afresh by each process unless PYTHONHASHSEED pins it).  A
    run is parameterised by that order; all that is known of it is that it
    lists the members of the set once each. *)
Record HashOrder : Type := {
  set_to_list :> gset string -> list string;
  set_to_list_perm : forall S : gset string, set_to_list S ≡ₚ elements S
}.

(** numpy's [argmax] on a float vector: the first maximum, a NaN counting as
    maximal; [ValueError] on an empty vector. *)
Fixpoint argmax_from (mp : float) (max_ind i : nat) (l : list float) : nat :=
  match l with
  | [] => max_ind
  | x :: rest =>
      if negb (x <=? mp)%float then
        if is_nan x then i else argmax_from x i (S i) rest
      else argmax_from mp max_ind (S i) rest
  end.

Definition np_argmax (l : list float) : result nat :=
  match l with
  | [] => Raise ValueError
  | x :: rest => Ok (if is_nan x then 0%nat else argmax_from x 0 1 rest)
  end.

Definition np_abs (l : list float) : list float := map abs l.

(** scikit-learn.  Each estimator call either returns or raises;
    [fit_predict] leaves a fitted forest behind, which [decision_function]
    then reads. *)
Record Library : Type := {
  fitted_forest : Type;
  (** [SimpleImputer(strategy='mean').fit_transform(X)] *)
  imputer_fit_transform : matrix -> result matrix;
  (** [StandardScaler().fit_transform(X)] *)
  scaler_fit_transform : matrix -> result matrix;
  (** [IsolationForest(contamination, random_state, n_jobs=-1).fit_predict(X)] *)
  forest_fit_predict : float -> Z -> matrix -> result (fitted_forest * list Z);
  (** [iso_forest.decision_function(X)] *)
  forest_decision_function : fitted_forest -> matrix -> result (list float)
}.

(** ** Value coercer *)

Definition strip_currency (s : string) : string :=
  str_remove " " (str_remove "," (str_remove "$" s)).

Definition _is_numeric (value : PyValue) : bool :=
  match value with
  | PyNone => false
  | PyStr s =>
      match py_float (strip_currency s) with
      | Some _ => true
      | None => false
      end
  end.

Definition _to_numeric (value : PyValue) : option float :=
  match value with
  | PyNone => None
  | PyStr s => py_float (strip_currency s)
  end.

(** ** Feature selection and the feature matrix *)

Definition reserved_names : list string := ["page"; "table"; "row_index"; "id"].

(** The inner loop over [row.items()]. *)
Definition scan_row (row : Row) (numeric_fields : gset string) : gset string :=
  map_fold (fun key value acc =>
              if _is_numeric value && negb (bool_decide (lower key ∈ reserved_names))
              then acc ∪ {[ key ]} else acc)
           numeric_fields row.

Definition numeric_fields (rows : list Row) : gset string :=
  let sample_size := Nat.min (length rows) 50 in
  foldl (fun acc row => scan_row row acc) ∅ (take sample_size rows).

(** The loop over [feature_names] for one row: the feature vector and
    [has_data]. *)
Definition row_features (feature_names : list string) (row : Row)
  : list float * bool :=
  foldl (fun '(row_features, has_data) field =>
           match _to_numeric (row_get row field) with
           | Some val => ((row_features ++ [val])%list, true)
           | None => ((row_features ++ [nan])%list, has_data)
           end)
        ([], false) feature_names.

(** The loop over [enumerate(rows)], from index [i] on. *)
Fixpoint build_matrix (feature_names : list string) (i : nat) (rows : list Row)
  : matrix * list nat :=
  match rows with
  | [] => ([], [])
  | row :: rest =>
      let '(row_features, has_data) := row_features feature_names row in
      let '(features, valid_indices) := build_matrix feature_names (S i) rest in
      if has_data then (row_features :: features, i :: valid_indices)
      else (features, valid_indices)
  end.

Definition _extract_features (order : HashOrder) (rows : list Row)
  : matrix * list nat * list string :=
  let feature_names := order (numeric_fields rows) in
  match feature_names with
  | [] => ([], [], [])
  | _ =>
      let '(features, valid_indices) := build_matrix feature_names 0 rows in
      (features, valid_indices, feature_names)
  end.

(** ** Detection *)

Definition severity_of (score : float) : string :=
  if (-0.1 <? score)%float then "medium" else "high".

Section Detect.
Context (lib : Library) (order : HashOrder) (self : UnsupervisedAnomalyDetector).

(** The body of the labelling loop for a row predicted [-1]. *)
Definition label_row (rows : list Row) (row_indices : list nat)
    (feature_names : list string) (X_imputed X_scaled : matrix)
    (scores : list float) (i : nat) : result Anomaly :=
  row_idx ← index row_indices i;
  score ← index scores i;
  row_scaled ← index X_scaled i;
  max_dev_idx ← np_argmax (np_abs row_scaled);
  key_feature ← index feature_names max_dev_idx;
  imputed_row ← index X_imputed i;
  key_value ← index imputed_row max_dev_idx;
  raw ← index rows row_idx;
  z ← index row_scaled max_dev_idx;
  mret {| row_index := row_idx;
          anomaly_type := "ml_outlier";
          severity := severity_of score;
          description :=
            "Statistical outlier detected by ML model. Unusual "
            ++ key_feature ++ ": " ++ format_2f key_value;
          raw_json := raw;
          evidence := {| algorithm := "isolation_forest";
                         anomaly_score := score;
                         key_feature := key_feature;
                         feature_value := key_value;
                         z_score_approx := z |} |}.

(** [for i, prediction in enumerate(predictions)], from index [i] on. *)
Fixpoint label_rows (rows : list Row) (row_indices : list nat)
    (feature_names : list string) (X_imputed X_scaled : matrix)
    (scores : list float) (i : nat) (predictions : list Z)
  : result (list Anomaly) :=
  match predictions with
  | [] => mret []
  | prediction :: rest =>
      if prediction =? -1 then
        a ← label_row rows row_indices feature_names X_imputed X_scaled scores i;
        anomalies ← label_rows rows row_indices feature_names X_imputed
                      X_scaled scores (S i) rest;
        mret (a :: anomalies)
      else
        label_rows rows row_indices feature_names X_imputed X_scaled scores
          (S i) rest
  end.

(** The model stage: impute, scale, fit and score. *)
Definition run_model (X : matrix)
  : result (matrix * matrix * list Z * list float) :=
  X_imputed ← imputer_fit_transform lib X;
  X_scaled ← scaler_fit_transform lib X_imputed;
  '(iso_forest, predictions) ←
    forest_fit_predict lib (contamination self) (random_state self) X_scaled;
  scores ← forest_decision_function lib iso_forest X_scaled;
  mret (X_imputed, X_scaled, predictions, scores).

(** The body of the [try] block. *)
Definition detect_try (rows : list Row) : result (list Anomaly) :=
  let '(features, row_indices, feature_names) := _extract_features order rows in
  match features with
  | [] => mret []
  | _ =>
      '(X_imputed, X_scaled, predictions, scores) ← run_model features;
      label_rows rows row_indices feature_names X_imputed X_scaled scores
        0 predictions
  end.

(** [not rows or len(rows) < self.min_samples] *)
Definition insufficient_data (rows : list Row) : bool :=
  bool_decide (rows = []) || (Z.of_nat (length rows) <? min_samples self).

Definition detect_anomalies (rows : list Row) : result (list Anomaly) :=
  if insufficient_data rows then Ok []
  else try_except (detect_try rows) (fun _ => Ok []).

End Detect.

(** ** Running the engine on concrete inputs *)

(** A library whose answers are tabulated: the estimators return the given
    matrices, predictions and scores whatever they are handed. *)
Definition tabulated (X_imputed X_scaled : matrix) (predictions : list Z)
    (scores : list float) : Library :=
  {| fitted_forest := unit;
     imputer_fit_transform := fun _ => Ok X_imputed;
     scaler_fit_transform := fun _ => Ok X_scaled;
     forest_fit_predict := fun _ _ _ => Ok (tt, predictions);
     forest_decision_function := fun _ _ => Ok scores |}.

(** ** Derived notions used in the statements *)

(** The test that guards [numeric_fields.add(key)]. *)
Definition candidate (key : string) (value : PyValue) : bool :=
  _is_numeric value && negb (bool_decide (lower key ∈ reserved_names)).

(** [has_data] after the loop over the feature names. *)
Definition has_numeric (feature_names : list string) (row : Row) : bool :=
  existsb (fun field => bool_decide (is_Some (_to_numeric (row_get row field))))
          feature_names.

(** One cell of the matrix: the coerced value, [nan] when missing. *)
Definition cell (row : Row) (field : string) : float :=
  default nan (_to_numeric (row_get row field)).

(** The three components of what [_extract_features] returns. *)
Definition features_of (order : HashOrder) (rows : list Row) : matrix :=
  (_extract_features order rows).1.1.
Definition row_indices_of (order : HashOrder) (rows : list Row) : list nat :=
  (_extract_features order rows).1.2.
Definition feature_names_of (order : HashOrder) (rows : list Row) : list string :=
  (_extract_features order rows).2.

(** The matrix rows predicted [-1], counted from [i]. *)
Fixpoint flagged (i : nat) (predictions : list Z) : list nat :=
  match predictions with
  | [] => []
  | prediction :: rest =>
      if prediction =? -1 then i :: flagged (S i) rest else flagged (S i) rest
  end.

(** The order of the binary64 comparisons on values that are not NaN, as a
    lexicographic order on integer triples: class and sign, exponent,
    mantissa. *)
Definition sf_key (x : spec_float) : Z * Z * Z :=
  match x with
  | S754_zero _ => (0, 0, 0)
  | S754_infinity s => (if s then -2 else 2, 0, 0)
  | S754_nan => (3, 0, 0)
  | S754_finite s m e => if s then (-1, - e, - Z.pos m) else (1, e, Z.pos m)
  end.

Definition key_le (a b : Z * Z * Z) : Prop :=
  a.1.1 < b.1.1 \/
  (a.1.1 = b.1.1 /\ (a.1.2 < b.1.2 \/ (a.1.2 = b.1.2 /\ a.2 <= b.2))).

Definition key_lt (a b : Z * Z * Z) : Prop :=
  a.1.1 < b.1.1 \/
  (a.1.1 = b.1.1 /\ (a.1.2 < b.1.2 \/ (a.1.2 = b.1.2 /\ a.2 < b.2))).

Definition float_key (x : float) : Z * Z * Z := sf_key (Prim2SF x).

(** The characters that [_is_numeric] and [_to_numeric] delete before
    parsing. *)
Definition currency_marks : list ascii := ["$"; ","; " "]%char.

(** A float vector without NaN. *)
Abbreviation no_nan := (Forall (fun x : float => is_nan x = false)).

(** ** Concrete inputs *)

(** The set order stdpp computes, and its reverse: two hash seeds. *)
Definition order_fwd : HashOrder :=
  {| set_to_list := elements;
     set_to_list_perm := fun S => reflexivity (elements S) |}.

Definition order_rev : HashOrder :=
  {| set_to_list := fun S => reverse (elements S);
     set_to_list_perm := fun S => reverse_Permutation (elements S) |}.

(** The spec's scenario: 25 rows with the one column [Amount], valued 100 in
    24 rows and 100000 in the last. *)
Definition amount_row (v : string) : Row := {[ "Amount" := PyStr v ]}.

Definition scenario_rows : list Row :=
  replicate 24 (amount_row "100") ++ [amount_row "100000"].

(** The estimators on that matrix: nothing to impute, the standardised
    column, the last row predicted [-1] with decision score [outlier_score]
    and the 24 tied rows sitting on the threshold. *)
Definition scenario_lib (outlier_score : float) : Library :=
  tabulated (replicate 24 [100%float] ++ [[100000%float]])
            (replicate 24 [(-0.2041241452319315)%float] ++ [[4.898979485566356%float]])
            (replicate 24 1 ++ [-1])
            (replicate 24 0%float ++ [outlier_score]).

Definition scenario_record (outlier_score : float) (sev : string) : Anomaly :=
  {| row_index := 24;
     anomaly_type := "ml_outlier";
     severity := sev;
     description :=
       "Statistical outlier detected by ML model. Unusual Amount: 100000.00";
     raw_json := amount_row "100000";
     evidence := {| algorithm := "isolation_forest";
                    anomaly_score := outlier_score;
                    key_feature := "Amount";
                    feature_value := 100000%float;
                    z_score_approx := 4.898979485566356%float |} |}.

(** A hundred identical rows.  The standardised column is constant, every
    row gets the same score, which is then also the contamination quantile;
    no score lies below it and every prediction is [1]. *)
Definition constant_rows : list Row := replicate 100 (amount_row "100").

Definition constant_lib : Library :=
  tabulated (replicate 100 [100%float]) (replicate 100 [0%float])
            (replicate 100 1) (replicate 100 0%float).

(** The scenario with the amount repeated in a second column [Total]. *)
Definition two_column_row (v : string) : Row :=
  {[ "Amount" := PyStr v; "Total" := PyStr v ]}.

Definition two_column_rows : list Row :=
  replicate 24 (two_column_row "100") ++ [two_column_row "100000"].

Definition two_column_lib : Library :=
  tabulated (replicate 24 [100%float; 100%float] ++ [[100000%float; 100000%float]])
            (replicate 24 [(-0.2041241452319315)%float; (-0.2041241452319315)%float]
             ++ [[4.898979485566356%float; 4.898979485566356%float]])
            (replicate 24 1 ++ [-1])
            (replicate 24 0%float ++ [(-0.25)%float]).

Definition two_column_out (order : HashOrder) : list Anomaly :=
  match detect_anomalies two_column_lib order (__init__ None) two_column_rows with
  | Ok out => out
  | Raise _ => []
  end.

(** Rows whose only cells are the strings "nan" and "inf". *)
Definition nan_rows : list Row :=
  replicate 19 ({[ "x" := PyStr "nan"; "y" := PyStr "inf" ]} : Row)
  ++ [ ({[ "x" := PyStr "NaN"; "y" := PyStr "-Infinity" ]} : Row) ].

(** The scenario with an empty cell in row 2, and the estimators flagging
    rows 4 and 23 of the 24-row matrix. *)
Definition gappy_rows : list Row :=
  [amount_row "100"; amount_row "100"; amount_row ""; amount_row "101";
   amount_row "100"; amount_row "9,000"]
  ++ replicate 18 (amount_row "100") ++ [amount_row "100000"].

Definition gappy_lib : Library :=
  tabulated
    ([[100%float]; [100%float]; [101%float]; [100%float]; [9000%float]]
     ++ replicate 18 [100%float] ++ [[100000%float]])
    ([[(-0.22)%float]; [(-0.22)%float]; [(-0.22)%float]; [(-0.22)%float];
      [0.22%float]] ++ replicate 18 [(-0.22)%float] ++ [[4.78%float]])
    ([1; 1; 1; 1; -1] ++ replicate 18 1 ++ [-1])
    ([0.05%float; 0.05%float; 0.05%float; 0.05%float; (-0.02)%float]
     ++ replicate 18 0.05%float ++ [(-0.25)%float]).

Definition gappy_out : list Anomaly :=
  match detect_anomalies gappy_lib order_fwd (__init__ None) gappy_rows with
  | Ok out => out
  | Raise _ => []
  end.

(** The strings the coercer turns into non-finite floats. *)
Definition nonfinite_words : list string := ["nan"; "inf"; "infinity"].

(** The scenario's estimators, but with one score too few: the flagged row
    24 has no entry in [scores]. *)
Definition short_scores_lib : Library :=
  tabulated (replicate 24 [100%float] ++ [[100000%float]])
            (replicate 24 [(-0.2041241452319315)%float] ++ [[4.898979485566356%float]])
            (replicate 24 1 ++ [-1])
            (replicate 24 0%float).

(** Fifty rows, a full sample. *)
Definition sample_rows : list Row := replicate 50 (amount_row "100").

(** Rows without any numeric column. *)
Definition category_rows : list Row :=
  replicate 10 ({[ "Category" := PyStr "Expense" ]} : Row)
  ++ replicate 10 ({[ "Category" := PyStr "Revenue" ]} : Row).

(** A library whose imputer raises. *)
Definition faulty_lib : Library :=
  {| fitted_forest := unit;
     imputer_fit_transform := fun _ => Raise (LibraryError "Input X contains infinity");
     scaler_fit_transform := fun X => Ok X;
     forest_fit_predict := fun _ _ _ => Ok (tt, []);
     forest_decision_function := fun _ _ => Ok [] |}.

(** * Properties *)

(** ** The error monad *)

Lemma bind_Ok {A B} (m : result A) (k : A -> result B) (b : B) :
  m ≫= k = Ok b -> exists a, m = Ok a /\ k a = Ok b.
Proof. destruct m as [a|e]; simpl; [eauto | discriminate]. Qed.

Lemma index_Ok {A} (l : list A) (i : nat) (x : A) :
  index l i = Ok x <-> l !! i = Some x.
Proof. unfold index. destruct (l !! i); split; congruence. Qed.

(** Peels the binds of a computation known to have returned. *)
Ltac bind_inv H :=
  repeat (let a := fresh "v" in
          let Ha := fresh "Hv" in
          apply bind_Ok in H as (a & Ha & H)).

(** ** Comparisons of binary64 values *)

Lemma SFcompare_flip (x y : spec_float) :
  SFcompare y x = CompOpp <$> SFcompare x y.
Proof.
  destruct x as [sx|sx| |sx mx ex], y as [sy|sy| |sy my ey]; simpl;
    try reflexivity; try (destruct sx; reflexivity);
    try (destruct sy; reflexivity); try (destruct sx, sy; reflexivity).
  f_equal. rewrite (Z.compare_antisym ex ey).
  change (Pos.compare_cont Eq my mx) with (Pos.compare my mx).
  change (Pos.compare_cont Eq mx my) with (Pos.compare mx my).
  rewrite (Pos.compare_antisym mx my).
  destruct sx, sy, (ex ?= ey), (mx ?= my)%positive; reflexivity.
Qed.

Lemma leb_not_gt (x y : float) : (x <=? y)%float = true -> (y <? x)%float = false.
Proof.
  rewrite leb_spec, ltb_spec. unfold SFleb, SFltb.
  rewrite (SFcompare_flip (Prim2SF x) (Prim2SF y)).
  destruct (SFcompare (Prim2SF x) (Prim2SF y)) as [[]|]; simpl; congruence.
Qed.

(** ** Severity *)

Lemma severity_of_cases (score : float) :
  ((score <=? -0.1)%float = true -> severity_of score = "high") /\
  ((-0.1 <? score)%float = true -> severity_of score = "medium") /\
  (severity_of score = "high" \/ severity_of score = "medium").
Proof.
  unfold severity_of. split; [|split].
  - intros H. now rewrite (leb_not_gt _ _ H).
  - intros ->. reflexivity.
  - destruct (-0.1 <? score)%float; auto.
Qed.

(** ** The labelling loop *)

Lemma flagged_lookup (predictions : list Z) (base k i : nat) :
  flagged base predictions !! k = Some i ->
  (base <= i)%nat /\ predictions !! (i - base)%nat = Some (-1).
Proof.
  revert base k. induction predictions as [|p rest IH]; intros base k; simpl.
  - discriminate.
  - assert (Hrest : forall k', flagged (S base) rest !! k' = Some i ->
              (base <= i)%nat /\ (p :: rest) !! (i - base)%nat = Some (-1)).
    { intros k' H. destruct (IH _ _ H) as [Hle Hp]. split; [lia|].
      replace (i - base)%nat with (S (i - S base)) by lia. exact Hp. }
    destruct (p =? -1) eqn:Ep; [|exact (Hrest k)].
    destruct k as [|k]; simpl; [|exact (Hrest k)].
    intros [= ->]. rewrite Nat.sub_diag. simpl. split; [lia|].
    f_equal. now apply Z.eqb_eq.
Qed.

Lemma flagged_sorted (predictions : list Z) (base : nat) :
  StronglySorted lt (flagged base predictions) /\
  Forall (fun i => base <= i < base + length predictions)%nat (flagged base predictions).
Proof.
  revert base. induction predictions as [|p rest IH]; intros base; simpl.
  - split; constructor.
  - destruct (IH (S base)) as [Hs Hb].
    assert (Hb' : Forall (fun i => base <= i < base + S (length rest))%nat
                         (flagged (S base) rest))
      by (eapply Forall_impl; [exact Hb | simpl; lia]).
    destruct (p =? -1); [|auto].
    split; constructor; try assumption; try lia.
    eapply Forall_impl; [exact Hb | simpl; lia].
Qed.

Section Labelling.
Context (rows : list Row) (row_indices : list nat) (feature_names : list string)
        (X_imputed X_scaled : matrix) (scores : list float).

Local Abbreviation label_row' :=
  (label_row rows row_indices feature_names X_imputed X_scaled scores).
Local Abbreviation label_rows' :=
  (label_rows rows row_indices feature_names X_imputed X_scaled scores).

Lemma label_row_inv (i : nat) (a : Anomaly) :
  label_row' i = Ok a ->
  exists score,
    row_indices !! i = Some (row_index a) /\
    scores !! i = Some score /\
    rows !! row_index a = Some (raw_json a) /\
    severity a = severity_of score /\
    anomaly_score (evidence a) = score /\
    key_feature (evidence a) ∈ feature_names.
Proof.
  unfold label_row. intros H. bind_inv H.
  injection H as <-. simpl.
  apply index_Ok in Hv, Hv0, Hv3, Hv6.
  exists v0. repeat split; try assumption.
  eapply list_elem_of_lookup_2; eassumption.
Qed.

(** A run of the loop that returns has labelled exactly the flagged rows,
    in order. *)
Lemma label_rows_flagged (predictions : list Z) (i : nat) (out : list Anomaly) :
  label_rows' i predictions = Ok out ->
  Forall2 (fun j a => label_row' j = Ok a) (flagged i predictions) out.
Proof.
  revert i out.
  induction predictions as [|p rest IH]; intros i out H; simpl in *.
  - injection H as <-. constructor.
  - destruct (p =? -1).
    + bind_inv H. injection H as <-. constructor; [exact Hv | auto].
    + auto.
Qed.

End Labelling.

(** ** Feature selection *)

Lemma elem_of_scan_row (row : Row) (acc : gset string) (name : string) :
  name ∈ scan_row row acc <->
  name ∈ acc \/ exists value, row !! name = Some value /\ candidate name value = true.
Proof.
  unfold scan_row. fold candidate.
  apply (map_fold_weak_ind
    (fun (r : gset string) (m : Row) =>
       name ∈ r <->
       name ∈ acc \/ exists value, m !! name = Some value /\ candidate name value = true)).
  - split; [auto|]. intros [H|(v & H & _)]; [exact H|]. now rewrite lookup_empty in H.
  - intros key x m r Hfresh IH.
    assert (Hstep : forall s : gset string,
              name ∈ (if candidate key x then s ∪ {[ key ]} else s) <->
              name ∈ s \/ (name = key /\ candidate key x = true)).
    { intros s. destruct (candidate key x).
      - rewrite elem_of_union, elem_of_singleton. tauto.
      - split; [auto | intros [?|[_ ?]]; [assumption | discriminate]]. }
    change (name ∈ (if candidate key x then r ∪ {[ key ]} else r) <->
            name ∈ acc \/
            exists value, <[key:=x]> m !! name = Some value /\ candidate name value = true).
    rewrite Hstep, IH. split.
    + intros [[H|(v & Hv & Hc)]|[-> Hc]].
      * now left.
      * right. exists v. split; [|exact Hc].
        rewrite lookup_insert_ne; [exact Hv|]. intros ->. congruence.
      * right. exists x. split; [apply lookup_insert_eq | exact Hc].
    + intros [H|(v & Hv & Hc)]; [now left; left|].
      destruct (decide (key = name)) as [->|Hne].
      * rewrite lookup_insert_eq in Hv. injection Hv as ->. now right.
      * rewrite lookup_insert_ne in Hv by exact Hne. left; right; eauto.
Qed.

Lemma elem_of_scan_rows (sample : list Row) (acc : gset string) (name : string) :
  name ∈ foldl (fun acc row => scan_row row acc) acc sample <->
  name ∈ acc \/
  exists row value, row ∈ sample /\ row !! name = Some value /\ candidate name value = true.
Proof.
  revert acc. induction sample as [|row sample IH]; intros acc; simpl.
  - split; [auto|]. intros [H|(r & v & H & _)]; [exact H|]. inversion H.
  - rewrite IH, elem_of_scan_row. split.
    + intros [[H|(v & Hv & Hc)]|(r & v & Hr & Hv & Hc)].
      * now left.
      * right. exists row, v. split; [left | auto].
      * right. exists r, v. split; [now right | auto].
    + intros [H|(r & v & Hr & Hv & Hc)]; [now left; left|].
      apply elem_of_cons in Hr as [->|Hr].
      * left; right; eauto.
      * right; eauto.
Qed.

Lemma elem_of_numeric_fields (rows : list Row) (name : string) :
  name ∈ numeric_fields rows <->
  exists row value,
    row ∈ take (Nat.min (length rows) 50) rows /\
    row !! name = Some value /\ candidate name value = true.
Proof.
  unfold numeric_fields. rewrite elem_of_scan_rows. split.
  - intros [H|H]; [set_solver | exact H].
  - auto.
Qed.

Lemma numeric_fields_sample (rows : list Row) :
  numeric_fields (take 50 rows) = numeric_fields rows.
Proof.
  unfold numeric_fields. rewrite length_take, take_take. do 2 f_equal. lia.
Qed.

Lemma extract_feature_names (order : HashOrder) (rows : list Row) :
  (_extract_features order rows).2 = order (numeric_fields rows).
Proof.
  unfold _extract_features.
  destruct (order (numeric_fields rows)) as [|f fs]; [reflexivity|].
  now destruct (build_matrix (f :: fs) 0 rows).
Qed.

Lemma elem_of_order (order : HashOrder) (S : gset string) (name : string) :
  name ∈ order S <-> name ∈ S.
Proof. now rewrite (set_to_list_perm order S), elem_of_elements. Qed.

(** ** The feature matrix *)

Lemma row_features_from (feature_names : list string) (row : Row)
    (acc : list float) (seen : bool) :
  foldl (fun '(row_features, has_data) field =>
           match _to_numeric (row_get row field) with
           | Some val => ((row_features ++ [val])%list, true)
           | None => ((row_features ++ [nan])%list, has_data)
           end)
        (acc, seen) feature_names
  = ((acc ++ map (cell row) feature_names)%list,
     seen || has_numeric feature_names row).
Proof.
  revert acc seen. induction feature_names as [|f fs IH]; intros acc seen; simpl.
  - now rewrite app_nil_r, orb_false_r.
  - unfold cell at 1. destruct (_to_numeric (row_get row f)) as [v|]; simpl;
      rewrite IH, <- app_assoc; simpl.
    + now rewrite orb_true_r.
    + reflexivity.
Qed.

Lemma row_features_eq (feature_names : list string) (row : Row) :
  row_features feature_names row
  = (map (cell row) feature_names, has_numeric feature_names row).
Proof. unfold row_features. now rewrite row_features_from. Qed.

Lemma build_matrix_length (feature_names : list string) (rows : list Row) (i : nat) :
  length (build_matrix feature_names i rows).1
  = length (build_matrix feature_names i rows).2.
Proof.
  revert i. induction rows as [|row rest IH]; intros i; simpl; [reflexivity|].
  rewrite row_features_eq. specialize (IH (S i)).
  destruct (build_matrix feature_names (S i) rest) as [fs ix].
  destruct (has_numeric feature_names row); simpl in *; congruence.
Qed.

(** Matrix row [k] is built from input row [valid_indices[k]]. *)
Lemma build_matrix_lookup (feature_names : list string) (rows : list Row)
    (i k j : nat) :
  (build_matrix feature_names i rows).2 !! k = Some j ->
  exists row,
    (i <= j)%nat /\ rows !! (j - i)%nat = Some row /\
    has_numeric feature_names row = true /\
    (build_matrix feature_names i rows).1 !! k = Some (map (cell row) feature_names).
Proof.
  revert i k. induction rows as [|row rest IH]; intros i k; simpl; [discriminate|].
  rewrite row_features_eq. specialize (IH (S i)).
  destruct (build_matrix feature_names (S i) rest) as [fs ix].
  destruct (has_numeric feature_names row) eqn:Hd; simpl in *.
  - destruct k as [|k]; simpl.
    + intros [= <-]. exists row. rewrite Nat.sub_diag. auto.
    + intros H. destruct (IH k H) as (r & Hle & Hr & Hn & Hf).
      exists r. repeat split; try assumption; [lia|].
      replace (j - i)%nat with (S (j - S i)) by lia. exact Hr.
  - intros H. destruct (IH k H) as (r & Hle & Hr & Hn & Hf).
    exists r. repeat split; try assumption; [lia|].
    replace (j - i)%nat with (S (j - S i)) by lia. exact Hr.
Qed.

(** Every row with a numeric feature is in the matrix. *)
Lemma build_matrix_keeps (feature_names : list string) (rows : list Row)
    (i n : nat) (row : Row) :
  rows !! n = Some row ->
  has_numeric feature_names row = true ->
  exists k,
    (build_matrix feature_names i rows).2 !! k = Some (i + n)%nat /\
    (build_matrix feature_names i rows).1 !! k = Some (map (cell row) feature_names).
Proof.
  revert i n. induction rows as [|r rest IH]; intros i n; simpl; [discriminate|].
  rewrite row_features_eq. specialize (IH (S i)).
  destruct (build_matrix feature_names (S i) rest) as [fs ix].
  destruct n as [|n]; simpl.
  - intros [= ->] ->. exists 0%nat. simpl. rewrite Nat.add_0_r. auto.
  - intros Hr Hn. destruct (IH n Hr Hn) as (k & Hk & Hf).
    replace (i + S n)%nat with (S i + n)%nat by lia.
    destruct (has_numeric feature_names r); [exists (S k) | exists k]; auto.
Qed.

Lemma build_matrix_sorted (feature_names : list string) (rows : list Row) (i : nat) :
  StronglySorted lt (build_matrix feature_names i rows).2 /\
  Forall (fun j => i <= j)%nat (build_matrix feature_names i rows).2.
Proof.
  revert i. induction rows as [|row rest IH]; intros i; simpl.
  - split; constructor.
  - rewrite row_features_eq. destruct (IH (S i)) as [Hs Hb].
    destruct (build_matrix feature_names (S i) rest) as [fs ix]; simpl in *.
    assert (Hb' : Forall (fun j => i <= j)%nat ix)
      by (eapply Forall_impl; [exact Hb | simpl; lia]).
    destruct (has_numeric feature_names row); simpl; [|auto].
    split; constructor; try assumption; lia.
Qed.

(** ** The call as a whole *)

Lemma extract_split (order : HashOrder) (rows : list Row) :
  _extract_features order rows
  = (features_of order rows, row_indices_of order rows, feature_names_of order rows).
Proof.
  unfold features_of, row_indices_of, feature_names_of.
  now destruct (_extract_features order rows) as [[? ?] ?].
Qed.

Lemma extract_build (order : HashOrder) (rows : list Row) :
  feature_names_of order rows <> [] ->
  features_of order rows = (build_matrix (feature_names_of order rows) 0 rows).1 /\
  row_indices_of order rows = (build_matrix (feature_names_of order rows) 0 rows).2.
Proof.
  unfold features_of, row_indices_of, feature_names_of, _extract_features.
  destruct (order (numeric_fields rows)) as [|f fs] eqn:E; [intros H; now destruct H|].
  intros _. destruct (build_matrix (f :: fs) 0 rows) as [fm ix] eqn:Eb; simpl.
  rewrite Eb. auto.
Qed.

Lemma extract_no_features (order : HashOrder) (rows : list Row) :
  feature_names_of order rows = [] ->
  features_of order rows = [] /\ row_indices_of order rows = [].
Proof.
  unfold features_of, row_indices_of, feature_names_of, _extract_features.
  destruct (order (numeric_fields rows)) as [|f fs]; [easy|].
  now destruct (build_matrix (f :: fs) 0 rows).
Qed.

Lemma extract_lengths (order : HashOrder) (rows : list Row) :
  length (features_of order rows) = length (row_indices_of order rows).
Proof.
  destruct (feature_names_of order rows) as [|f fs] eqn:E.
  - now destruct (extract_no_features order rows E) as [-> ->].
  - destruct (extract_build order rows) as [-> ->]; [congruence|].
    apply build_matrix_length.
Qed.

Lemma row_indices_sorted (order : HashOrder) (rows : list Row) :
  StronglySorted lt (row_indices_of order rows).
Proof.
  destruct (feature_names_of order rows) as [|f fs] eqn:E.
  - destruct (extract_no_features order rows E) as [_ ->]. constructor.
  - destruct (extract_build order rows) as [_ ->]; [congruence|].
    apply build_matrix_sorted.
Qed.

Section Run.
Context (lib : Library) (order : HashOrder)
        (self : UnsupervisedAnomalyDetector) (rows : list Row).

Local Abbreviation features := (features_of order rows).
Local Abbreviation row_indices := (row_indices_of order rows).
Local Abbreviation feature_names := (feature_names_of order rows).

Lemma detect_try_unfold :
  detect_try lib order self rows =
  match features with
  | [] => Ok []
  | _ =>
      '(X_imputed, X_scaled, predictions, scores) ← run_model lib self features;
      label_rows rows row_indices feature_names X_imputed X_scaled scores
        0 predictions
  end.
Proof. unfold detect_try. now rewrite extract_split. Qed.

(** The call always returns a list. *)
Lemma detect_anomalies_returns :
  exists out, detect_anomalies lib order self rows = Ok out.
Proof.
  unfold detect_anomalies. destruct (insufficient_data self rows); [eauto|].
  destruct (detect_try lib order self rows); simpl; eauto.
Qed.

(** A non-empty result comes out of the labelling loop, run on what the
    model stage returned. *)
Lemma detect_anomalies_inv (out : list Anomaly) :
  detect_anomalies lib order self rows = Ok out ->
  out = [] \/
  exists X_imputed X_scaled predictions scores,
    insufficient_data self rows = false /\
    run_model lib self features = Ok (X_imputed, X_scaled, predictions, scores) /\
    label_rows rows row_indices feature_names X_imputed X_scaled scores
      0 predictions = Ok out.
Proof.
  unfold detect_anomalies. destruct (insufficient_data self rows).
  { intros [= <-]. now left. }
  rewrite detect_try_unfold. destruct features as [|r fs] eqn:Ef.
  { intros [= <-]. now left. }
  destruct (run_model lib self (r :: fs)) as [[[[Xi Xs] preds] scores]|e]; simpl.
  - destruct (label_rows _ _ _ _ _ _ _ _) as [l|e] eqn:El; simpl.
    + intros [= <-]. right. exists Xi, Xs, preds, scores. auto.
    + intros [= <-]. now left.
  - intros [= <-]. now left.
Qed.

(** Where a record of the output comes from. *)
Lemma detect_anomalies_record (out : list Anomaly) (a : Anomaly) :
  detect_anomalies lib order self rows = Ok out -> a ∈ out ->
  exists X_imputed X_scaled predictions scores i,
    run_model lib self features = Ok (X_imputed, X_scaled, predictions, scores) /\
    predictions !! i = Some (-1) /\
    label_row rows row_indices feature_names X_imputed X_scaled scores i = Ok a.
Proof.
  intros Hrun Ha. apply detect_anomalies_inv in Hrun as [->|Hrun].
  { inversion Ha. }
  destruct Hrun as (Xi & Xs & preds & scores & _ & Hm & Hl).
  exists Xi, Xs, preds, scores.
  apply label_rows_flagged in Hl.
  apply list_elem_of_lookup in Ha as [k Hk].
  destruct (Forall2_lookup_r _ _ _ _ _ Hl Hk) as (i & Hi & Hrow).
  exists i. repeat split; try assumption.
  apply flagged_lookup in Hi as [_ Hi]. now rewrite Nat.sub_0_r in Hi.
Qed.

End Run.

(** ** Concrete runs *)

Lemma scenario_run_high :
  detect_anomalies (scenario_lib (-0.25)%float) order_fwd (__init__ None) scenario_rows
  = Ok [scenario_record (-0.25)%float "high"].
Proof. vm_compute. reflexivity. Qed.

Lemma scenario_run_medium :
  detect_anomalies (scenario_lib (-0.05)%float) order_fwd (__init__ None) scenario_rows
  = Ok [scenario_record (-0.05)%float "medium"].
Proof. vm_compute. reflexivity. Qed.

Lemma scenario_run_boundary :
  detect_anomalies (scenario_lib (-0.1)%float) order_fwd (__init__ None) scenario_rows
  = Ok [scenario_record (-0.1)%float "high"].
Proof. vm_compute. reflexivity. Qed.

(** ** Order and number of the records *)

Lemma sorted_lookup_lt (l : list nat) :
  StronglySorted lt l ->
  forall i j x y, (i < j)%nat -> l !! i = Some x -> l !! j = Some y -> (x < y)%nat.
Proof.
  induction 1 as [|a l Hs IH Hall]; intros i j x y Hij Hi Hj.
  - discriminate.
  - destruct j as [|j]; [lia|]. simpl in Hj. destruct i as [|i]; simpl in Hi.
    + injection Hi as <-. rewrite Forall_forall in Hall.
      apply Hall. eapply list_elem_of_lookup_2. exact Hj.
    + apply (IH i j); [lia | assumption | assumption].
Qed.

Lemma sorted_bounded_length (n : nat) (l : list nat) (b : nat) :
  StronglySorted lt l ->
  Forall (fun x => b <= x < n)%nat l ->
  (b <= n)%nat -> (b + length l <= n)%nat.
Proof.
  intros Hs. revert b. induction Hs as [|x l Hs IH Hall]; intros b Hb Hbn; simpl.
  - lia.
  - inversion Hb as [|? ? Hx Hl]; subst.
    assert (Hl' : Forall (fun y => S x <= y < n)%nat l).
    { rewrite Forall_forall in *. intros y Hy.
      specialize (Hall y Hy). specialize (Hl y Hy). lia. }
    specialize (IH (S x) Hl'). lia.
Qed.

(** Records labelled from strictly ascending matrix rows carry strictly
    ascending [row_index]es. *)
Lemma labelled_sorted (row_indices : list nat) (idxs : list nat) (out : list Anomaly) :
  StronglySorted lt row_indices ->
  StronglySorted lt idxs ->
  Forall2 (fun i a => row_indices !! i = Some (row_index a)) idxs out ->
  StronglySorted lt (map row_index out).
Proof.
  intros Hri Hidx Hall. induction Hall as [|i a idxs out Hi Hrest IH]; simpl.
  - constructor.
  - apply StronglySorted_inv in Hidx as [Hidx Hlt]. constructor; [auto|].
    rewrite Forall_forall. intros y Hy.
    apply list_elem_of_fmap in Hy as (a' & -> & Ha').
    apply list_elem_of_lookup in Ha' as [k Hk].
    destruct (Forall2_lookup_r _ _ _ _ _ Hrest Hk) as (i' & Hi' & Hrow').
    rewrite Forall_forall in Hlt.
    eapply (sorted_lookup_lt row_indices Hri i i'); [|eassumption|eassumption].
    apply Hlt. eapply list_elem_of_lookup_2. exact Hi'.
Qed.

Lemma flagged_length (predictions : list Z) (base : nat) :
  length (flagged base predictions) = count_occ Z.eq_dec predictions (-1).
Proof.
  revert base. induction predictions as [|p rest IH]; intros base; simpl.
  - reflexivity.
  - destruct (Z.eq_dec p (-1)) as [->|Hne]; simpl; [now rewrite IH|].
    apply Z.eqb_neq in Hne. rewrite Hne. apply IH.
Qed.

Section Order.
Context (lib : Library) (order : HashOrder)
        (self : UnsupervisedAnomalyDetector) (rows : list Row).

(** The matrix rows behind the records of a returned list. *)
Lemma detect_anomalies_rows (out : list Anomaly) :
  detect_anomalies lib order self rows = Ok out ->
  exists idxs,
    StronglySorted lt idxs /\
    Forall2 (fun i a => row_indices_of order rows !! i = Some (row_index a))
            idxs out /\
    (out = [] \/
     exists X_imputed X_scaled predictions scores,
       run_model lib self (features_of order rows)
         = Ok (X_imputed, X_scaled, predictions, scores) /\
       idxs = flagged 0 predictions).
Proof.
  intros Hrun. apply detect_anomalies_inv in Hrun as [->|Hrun].
  { exists []. repeat split; [constructor | constructor | now left]. }
  destruct Hrun as (Xi & Xs & preds & scores & _ & Hm & Hl).
  exists (flagged 0 preds). split; [apply flagged_sorted|]. split.
  - apply label_rows_flagged in Hl.
    eapply Forall2_impl; [exact Hl|]. simpl. intros i a Hrow.
    now destruct (label_row_inv _ _ _ _ _ _ _ _ Hrow) as (? & ? & _).
  - right. exists Xi, Xs, preds, scores. auto.
Qed.

End Order.

(** ** The iteration order of the feature set *)

Lemma label_row_key (rows : list Row) (row_indices : list nat)
    (feature_names : list string) (X_imputed X_scaled : matrix)
    (scores : list float) (i : nat) (a : Anomaly) :
  label_row rows row_indices feature_names X_imputed X_scaled scores i = Ok a ->
  exists row_scaled k,
    X_scaled !! i = Some row_scaled /\
    np_argmax (np_abs row_scaled) = Ok k /\
    feature_names !! k = Some (key_feature (evidence a)).
Proof.
  unfold label_row. intros H. bind_inv H. injection H as <-. simpl.
  apply index_Ok in Hv1, Hv3. eauto.
Qed.

(** Two name lists that disagree at every position attribute every flagged
    row to different features. *)
Lemma label_rows_attribution (rows : list Row) (row_indices : list nat)
    (names1 names2 : list string) (X_imputed X_scaled : matrix)
    (scores : list float) (predictions : list Z) (i : nat)
    (out1 out2 : list Anomaly) :
  (forall k x y, names1 !! k = Some x -> names2 !! k = Some y -> x <> y) ->
  label_rows rows row_indices names1 X_imputed X_scaled scores i predictions = Ok out1 ->
  label_rows rows row_indices names2 X_imputed X_scaled scores i predictions = Ok out2 ->
  Forall2 (fun a b => key_feature (evidence a) <> key_feature (evidence b)) out1 out2.
Proof.
  intros Hdiff. revert i out1 out2.
  induction predictions as [|p rest IH]; intros i out1 out2 H1 H2; simpl in *.
  - injection H1 as <-. injection H2 as <-. constructor.
  - destruct (p =? -1); [|eauto].
    apply bind_Ok in H1 as (a & Ha & H1). apply bind_Ok in H1 as (l1 & Hl1 & H1).
    apply bind_Ok in H2 as (b & Hb & H2). apply bind_Ok in H2 as (l2 & Hl2 & H2).
    injection H1 as <-. injection H2 as <-. constructor; [|eauto].
    apply label_row_key in Ha as (r1 & k1 & Hr1 & Hk1 & Hn1).
    apply label_row_key in Hb as (r2 & k2 & Hr2 & Hk2 & Hn2).
    rewrite Hr1 in Hr2. injection Hr2 as <-.
    rewrite Hk1 in Hk2. injection Hk2 as <-.
    exact (Hdiff _ _ _ Hn1 Hn2).
Qed.

Lemma names_disagree (k : nat) (x y : string) :
  ["Amount"; "Total"] !! k = Some x -> ["Total"; "Amount"] !! k = Some y -> x <> y.
Proof.
  destruct k as [|[|k]]; simpl; try discriminate; intros [= <-] [= <-]; discriminate.
Qed.

Lemma two_column_extract :
  feature_names_of order_fwd two_column_rows = ["Amount"; "Total"] /\
  feature_names_of order_rev two_column_rows = ["Total"; "Amount"] /\
  features_of order_rev two_column_rows = features_of order_fwd two_column_rows /\
  row_indices_of order_rev two_column_rows = row_indices_of order_fwd two_column_rows.
Proof. repeat split; vm_compute; reflexivity. Qed.

(** ** Further concrete runs *)

(** The coercer on the spec's sample cells. *)
Lemma coercer_examples :
  _to_numeric (PyStr "$1,234.56") = Some 1234.56%float /\
  _to_numeric (PyStr "") = None /\
  _to_numeric PyNone = None /\
  _to_numeric (PyStr "Expense") = None /\
  _to_numeric (PyStr " 1 000 ") = Some 1000%float /\
  _is_numeric (PyStr "(100)") = false /\
  _is_numeric (PyStr "1e5") = true.
Proof. repeat split; vm_compute; reflexivity. Qed.

(** The run with a dropped row: matrix row 4 is input row 5. *)
Lemma gappy_run :
  detect_anomalies gappy_lib order_fwd (__init__ None) gappy_rows = Ok gappy_out /\
  map row_index gappy_out = [5; 24]%nat /\
  row_indices_of order_fwd gappy_rows !! 4%nat = Some 5%nat.
Proof. repeat split; vm_compute; reflexivity. Qed.

(** The two runs on the tabulated estimators: the same row, the same score,
    another [key_feature] and [description]. *)
Lemma two_column_runs :
  map row_index (two_column_out order_fwd) = [24%nat] /\
  map row_index (two_column_out order_rev) = [24%nat] /\
  map (fun a => key_feature (evidence a)) (two_column_out order_fwd) = ["Amount"] /\
  map (fun a => key_feature (evidence a)) (two_column_out order_rev) = ["Total"] /\
  map description (two_column_out order_fwd)
  = ["Statistical outlier detected by ML model. Unusual Amount: 100000.00"] /\
  map description (two_column_out order_rev)
  = ["Statistical outlier detected by ML model. Unusual Total: 100000.00"].
Proof. repeat split; vm_compute; reflexivity. Qed.

(** A fault in the imputer, caught. *)
Lemma imputer_fault_caught :
  detect_try faulty_lib order_fwd (__init__ None) scenario_rows
  = Raise (LibraryError "Input X contains infinity") /\
  detect_anomalies faulty_lib order_fwd (__init__ None) scenario_rows = Ok [].
Proof. split; vm_compute; reflexivity. Qed.

(** ** Non-finite strings *)

Lemma nonfinite_word_numeric (s : string) :
  s ∈ nonfinite_words ->
  exists v, _to_numeric (PyStr s) = Some v /\ (is_nan v = true \/ v = infinity).
Proof.
  unfold nonfinite_words. intros H.
  repeat (apply elem_of_cons in H as [->|H]);
    [exists nan | exists infinity | exists infinity | inversion H];
    (split; [vm_compute; reflexivity | auto]).
Qed.

(** ** The claims *)

(** C1, as amended.  Past the minimum-sample gate, a feature matrix without
    rows (as when no column was selected) gives no anomalies.  There is no
    guard on the shape otherwise: a matrix with rows, be it of one column or
    one row, goes through the model stage, and what the labelling loop makes
    of the model's answer is returned. *)
Theorem empty_matrix_no_anomalies (lib : Library) (order : HashOrder)
    (self : UnsupervisedAnomalyDetector) (rows : list Row) :
  insufficient_data self rows = false ->
  (features_of order rows = [] ->
   detect_anomalies lib order self rows = Ok []) /\
  (forall X_imputed X_scaled predictions scores out,
     features_of order rows <> [] ->
     run_model lib self (features_of order rows)
       = Ok (X_imputed, X_scaled, predictions, scores) ->
     label_rows rows (row_indices_of order rows) (feature_names_of order rows)
       X_imputed X_scaled scores 0 predictions = Ok out ->
     detect_anomalies lib order self rows = Ok out).
Proof.
  intros Hgate. unfold detect_anomalies. rewrite Hgate, detect_try_unfold. split.
  - now intros ->.
  - intros Xi Xs preds scores out Hne Hm Hl.
    destruct (features_of order rows); [now destruct Hne|].
    rewrite Hm. simpl. now rewrite Hl.
Qed.

Lemma empty_matrix_no_anomalies_witness :
  detect_anomalies (scenario_lib (-0.25)%float) order_fwd (__init__ None) category_rows
  = Ok [].
Proof.
  apply (empty_matrix_no_anomalies (scenario_lib (-0.25)%float) order_fwd
           (__init__ None) category_rows); reflexivity.
Defined.

(** C1 as stated fails: the scenario passes the gate, its matrix has a
    single column, and the flagged row is reported. *)
Lemma single_column_is_scored :
  insufficient_data (__init__ None) scenario_rows = false /\
  feature_names_of order_fwd scenario_rows = ["Amount"] /\
  detect_anomalies (scenario_lib (-0.25)%float) order_fwd (__init__ None) scenario_rows
  <> Ok [].
Proof.
  split; [reflexivity|]. split; [reflexivity|].
  rewrite scenario_run_high. discriminate.
Qed.

(** C2.  Every record of the output belongs to a matrix row the model
    predicted [-1]; with [score] the decision-function value of that row
    (also stored as the record's [anomaly_score]), the severity is "high"
    when [score <= -0.1], "medium" when [score > -0.1], and never anything
    else. *)
Theorem severity_by_score (lib : Library) (order : HashOrder)
    (self : UnsupervisedAnomalyDetector) (rows : list Row)
    (out : list Anomaly) (a : Anomaly) :
  detect_anomalies lib order self rows = Ok out ->
  a ∈ out ->
  exists X_imputed X_scaled predictions scores i score,
    run_model lib self (features_of order rows)
      = Ok (X_imputed, X_scaled, predictions, scores) /\
    predictions !! i = Some (-1) /\
    row_indices_of order rows !! i = Some (row_index a) /\
    scores !! i = Some score /\
    anomaly_score (evidence a) = score /\
    ((score <=? -0.1)%float = true -> severity a = "high") /\
    ((-0.1 <? score)%float = true -> severity a = "medium") /\
    (severity a = "high" \/ severity a = "medium").
Proof.
  intros Hrun Ha.
  destruct (detect_anomalies_record _ _ _ _ _ _ Hrun Ha)
    as (Xi & Xs & preds & scores & i & Hm & Hp & Hrow).
  destruct (label_row_inv _ _ _ _ _ _ _ _ Hrow)
    as (score & Hidx & Hs & _ & Hsev & Hscore & _).
  exists Xi, Xs, preds, scores, i, score.
  rewrite Hsev. repeat split; try assumption; apply severity_of_cases.
Qed.

Lemma severity_by_score_witness :
  exists X_imputed X_scaled predictions scores i score,
    run_model (scenario_lib (-0.25)%float) (__init__ None)
      (features_of order_fwd scenario_rows)
      = Ok (X_imputed, X_scaled, predictions, scores) /\
    predictions !! i = Some (-1) /\
    row_indices_of order_fwd scenario_rows !! i
    = Some (row_index (scenario_record (-0.25)%float "high")) /\
    scores !! i = Some score /\
    anomaly_score (evidence (scenario_record (-0.25)%float "high")) = score /\
    ((score <=? -0.1)%float = true ->
     severity (scenario_record (-0.25)%float "high") = "high") /\
    ((-0.1 <? score)%float = true ->
     severity (scenario_record (-0.25)%float "high") = "medium") /\
    (severity (scenario_record (-0.25)%float "high") = "high" \/
     severity (scenario_record (-0.25)%float "high") = "medium").
Proof.
  apply (severity_by_score (scenario_lib (-0.25)%float) order_fwd (__init__ None)
           scenario_rows [scenario_record (-0.25)%float "high"]).
  - vm_compute. reflexivity.
  - apply list_elem_of_here.
Defined.

(** C3, as amended.  A flagged row whose decision-function score is exactly
    -0.1 is labelled "high": the test for "medium" is [score > -0.1], so
    the boundary belongs to the high side. *)
Theorem severity_at_boundary (lib : Library) (order : HashOrder)
    (self : UnsupervisedAnomalyDetector) (rows : list Row)
    (out : list Anomaly) (a : Anomaly) :
  detect_anomalies lib order self rows = Ok out ->
  a ∈ out ->
  anomaly_score (evidence a) = (-0.1)%float ->
  severity a = "high".
Proof.
  intros Hrun Ha Hscore.
  destruct (detect_anomalies_record _ _ _ _ _ _ Hrun Ha)
    as (Xi & Xs & preds & scores & i & _ & _ & Hrow).
  destruct (label_row_inv _ _ _ _ _ _ _ _ Hrow)
    as (score & _ & _ & _ & Hsev & Hs & _).
  rewrite Hsev, <- Hs, Hscore. reflexivity.
Qed.

Lemma severity_at_boundary_witness :
  severity (scenario_record (-0.1)%float "high") = "high".
Proof.
  apply (severity_at_boundary (scenario_lib (-0.1)%float) order_fwd (__init__ None)
           scenario_rows [scenario_record (-0.1)%float "high"]).
  - vm_compute. reflexivity.
  - apply list_elem_of_here.
  - reflexivity.
Defined.

(** C3 as stated fails: with the flagged row of the scenario scored exactly
    -0.1, the one record returned carries that score and is not "medium". *)
Lemma boundary_score_not_medium :
  exists a,
    detect_anomalies (scenario_lib (-0.1)%float) order_fwd (__init__ None) scenario_rows
    = Ok [a] /\
    anomaly_score (evidence a) = (-0.1)%float /\
    severity a <> "medium".
Proof.
  exists (scenario_record (-0.1)%float "high").
  split; [exact scenario_run_boundary|]. split; [reflexivity | discriminate].
Qed.

(** C4 fails on the code.  The feature names are listed in the iteration
    order of a [set] of strings, which two interpreter processes need not
    share.  On the two-column input, under two such orders, the estimators
    receive the same matrix and answer alike, whatever they are; yet as soon
    as one run reports a row, the other run's output differs from it: every
    record names the other column as its [key_feature]. *)
Theorem hash_order_changes_output (lib : Library)
    (self : UnsupervisedAnomalyDetector) (out1 out2 : list Anomaly) :
  detect_anomalies lib order_fwd self two_column_rows = Ok out1 ->
  detect_anomalies lib order_rev self two_column_rows = Ok out2 ->
  out1 <> [] ->
  out1 <> out2 /\
  (length out1 = length out2 ->
   Forall2 (fun a b => key_feature (evidence a) <> key_feature (evidence b))
           out1 out2).
Proof.
  intros H1 H2 Hne.
  destruct two_column_extract as (Hn1 & Hn2 & Hf & Hi).
  apply detect_anomalies_inv in H1 as [->|H1]; [now destruct Hne|].
  destruct H1 as (Xi & Xs & preds & scores & _ & Hm1 & Hl1).
  assert (Hcase : out2 = [] \/
            Forall2 (fun a b => key_feature (evidence a) <> key_feature (evidence b))
                    out1 out2).
  { apply detect_anomalies_inv in H2 as [->|H2]; [now left|]. right.
    destruct H2 as (Xi' & Xs' & preds' & scores' & _ & Hm2 & Hl2).
    rewrite Hf, Hm1 in Hm2. injection Hm2 as <- <- <- <-.
    rewrite Hi, Hn2 in Hl2. rewrite Hn1 in Hl1.
    exact (label_rows_attribution _ _ _ _ _ _ _ _ _ _ _ names_disagree Hl1 Hl2). }
  split.
  - intros <-. destruct Hcase as [->|Hall]; [now destruct Hne|].
    destruct out1 as [|a l]; [now destruct Hne|].
    apply Forall2_cons in Hall as [Ha _]. now destruct Ha.
  - intros Hlen. destruct Hcase as [->|Hall]; [|exact Hall].
    destruct out1; [now destruct Hne | discriminate].
Qed.

Lemma hash_order_changes_output_witness :
  two_column_out order_fwd <> two_column_out order_rev /\
  (length (two_column_out order_fwd) = length (two_column_out order_rev) ->
   Forall2 (fun a b => key_feature (evidence a) <> key_feature (evidence b))
           (two_column_out order_fwd) (two_column_out order_rev)).
Proof.
  refine (hash_order_changes_output two_column_lib (__init__ None)
            (two_column_out order_fwd) (two_column_out order_rev) _ _ _).
  - vm_compute. reflexivity.
  - vm_compute. reflexivity.
  - vm_compute. discriminate.
Defined.

(** C5, as amended.  The engine computes no quantile and no rounding of its
    own: a returned list is empty or holds one record for each matrix row
    that [fit_predict] labelled [-1], and in every case it has no more
    records than the matrix has rows. *)
Theorem anomaly_count (lib : Library) (order : HashOrder)
    (self : UnsupervisedAnomalyDetector) (rows : list Row) (out : list Anomaly) :
  detect_anomalies lib order self rows = Ok out ->
  (length out <= length (features_of order rows))%nat /\
  (out = [] \/
   exists X_imputed X_scaled predictions scores,
     run_model lib self (features_of order rows)
       = Ok (X_imputed, X_scaled, predictions, scores) /\
     length out = count_occ Z.eq_dec predictions (-1)).
Proof.
  intros Hrun.
  destruct (detect_anomalies_rows _ _ _ _ _ Hrun) as (idxs & Hs & Hall & Hcount).
  split.
  - rewrite <- (Forall2_length _ _ _ Hall), extract_lengths.
    apply (sorted_bounded_length _ idxs 0 Hs); [|lia].
    rewrite Forall_forall. intros i Hi.
    apply list_elem_of_lookup in Hi as [k Hk].
    destruct (Forall2_lookup_l _ _ _ _ _ Hall Hk) as (a & _ & Ha).
    apply lookup_lt_Some in Ha. lia.
  - destruct Hcount as [->|(Xi & Xs & preds & scores & Hm & ->)]; [now left|].
    right. exists Xi, Xs, preds, scores. split; [exact Hm|].
    rewrite <- (Forall2_length _ _ _ Hall). apply flagged_length.
Qed.

Lemma anomaly_count_witness :
  (length [scenario_record (-0.25)%float "high"]
   <= length (features_of order_fwd scenario_rows))%nat /\
  ([scenario_record (-0.25)%float "high"] = [] \/
   exists X_imputed X_scaled predictions scores,
     run_model (scenario_lib (-0.25)%float) (__init__ None)
       (features_of order_fwd scenario_rows)
       = Ok (X_imputed, X_scaled, predictions, scores) /\
     length [scenario_record (-0.25)%float "high"]
     = count_occ Z.eq_dec predictions (-1)).
Proof.
  apply (anomaly_count (scenario_lib (-0.25)%float) order_fwd (__init__ None)
           scenario_rows).
  vm_compute. reflexivity.
Defined.

(** C5 as stated fails: a hundred identical rows reach the model stage with
    the default contamination, [round(0.05 * 100)] is 5, and no record is
    returned. *)
Lemma constant_rows_none_flagged :
  insufficient_data (__init__ None) constant_rows = false /\
  length (features_of order_fwd constant_rows) = 100%nat /\
  py_round (contamination (__init__ None) * float_of_nat 100)%float = Some 5 /\
  detect_anomalies constant_lib order_fwd (__init__ None) constant_rows = Ok [].
Proof. repeat split; vm_compute; reflexivity. Qed.

(** C6.  With fewer rows than [min_samples] (20 unless the config says
    otherwise), or with no column selected as a numeric feature, the call
    returns the empty list; it does not raise. *)
Theorem insufficient_data_empty (lib : Library) (order : HashOrder)
    (config : option Config) (rows : list Row) :
  (Z.of_nat (length rows) < default 20 (config ≫= ml_min_samples) \/
   numeric_fields rows = ∅) ->
  detect_anomalies lib order (__init__ config) rows = Ok [].
Proof.
  intros H. unfold detect_anomalies, insufficient_data.
  assert (Hmin : min_samples (__init__ config) = default 20 (config ≫= ml_min_samples))
    by now destruct config.
  rewrite Hmin.
  destruct (bool_decide (rows = [])); [reflexivity|]. simpl.
  destruct (Z.ltb_spec (Z.of_nat (length rows))
              (default 20 (config ≫= ml_min_samples))) as [Hlt|Hge]; [reflexivity|].
  destruct H as [H|H]; [lia|].
  rewrite detect_try_unfold.
  assert (Hnames : feature_names_of order rows = []).
  { unfold feature_names_of. rewrite extract_feature_names, H.
    apply Permutation_nil_r. rewrite (set_to_list_perm order ∅).
    now rewrite elements_empty. }
  now destruct (extract_no_features order rows Hnames) as [-> _].
Qed.

Lemma insufficient_data_empty_witness :
  detect_anomalies (scenario_lib (-0.25)%float) order_fwd (__init__ None)
    (take 15 scenario_rows) = Ok [] /\
  detect_anomalies (scenario_lib (-0.25)%float) order_fwd (__init__ None)
    category_rows = Ok [].
Proof.
  split.
  - apply (insufficient_data_empty (scenario_lib (-0.25)%float) order_fwd None
             (take 15 scenario_rows)).
    left. vm_compute. reflexivity.
  - apply (insufficient_data_empty (scenario_lib (-0.25)%float) order_fwd None
             category_rows).
    right. vm_compute. reflexivity.
Defined.

(** C7.  Whatever the rows, the configuration and the behaviour of the
    estimators, the call returns a list; and when the body of its [try]
    raises, at whichever stage, that list is empty. *)
Theorem never_raises (lib : Library) (order : HashOrder)
    (self : UnsupervisedAnomalyDetector) (rows : list Row) :
  (exists out, detect_anomalies lib order self rows = Ok out) /\
  (forall e, detect_try lib order self rows = Raise e ->
             detect_anomalies lib order self rows = Ok []).
Proof.
  split; [apply detect_anomalies_returns|].
  intros e He. unfold detect_anomalies. rewrite He.
  now destruct (insufficient_data self rows).
Qed.

(** C8.  A column name is among the selected features exactly when some row
    of the sample (the first [min(len(rows), 50)] rows) holds under that
    name a value that coerces to a number, and the lower-cased name is not
    reserved.  Rows past the sample do not change the selection. *)
Theorem feature_selection (order : HashOrder) (rows : list Row) (name : string) :
  (name ∈ feature_names_of order rows <->
   exists row value,
     row ∈ take (Nat.min (length rows) 50) rows /\
     row !! name = Some value /\
     _is_numeric value = true /\
     lower name ∉ reserved_names) /\
  numeric_fields (take 50 rows) = numeric_fields rows /\
  feature_names_of order (take 50 rows) = feature_names_of order rows.
Proof.
  split; [|split].
  - unfold feature_names_of.
    rewrite extract_feature_names, elem_of_order, elem_of_numeric_fields.
    unfold candidate. split.
    + intros (row & v & Hrow & Hv & Hc). exists row, v.
      apply andb_true_iff in Hc as [Hn Hr]. apply negb_true_iff in Hr.
      apply bool_decide_eq_false in Hr. auto.
    + intros (row & v & Hrow & Hv & Hn & Hr). exists row, v.
      repeat split; try assumption.
      apply andb_true_iff. split; [exact Hn|].
      apply negb_true_iff. now apply bool_decide_eq_false.
  - apply numeric_fields_sample.
  - unfold feature_names_of.
    now rewrite !extract_feature_names, numeric_fields_sample.
Qed.

(** C9.  The records come in strictly ascending [row_index]: the flagged
    rows, in the order of the input. *)
Theorem output_order (lib : Library) (order : HashOrder)
    (self : UnsupervisedAnomalyDetector) (rows : list Row) (out : list Anomaly) :
  detect_anomalies lib order self rows = Ok out ->
  StronglySorted lt (map row_index out) /\
  Forall (fun a => rows !! row_index a = Some (raw_json a)) out.
Proof.
  intros Hrun. split.
  - destruct (detect_anomalies_rows _ _ _ _ _ Hrun) as (idxs & Hs & Hall & _).
    exact (labelled_sorted _ idxs out (row_indices_sorted order rows) Hs Hall).
  - rewrite Forall_forall. intros a Ha.
    destruct (detect_anomalies_record _ _ _ _ _ _ Hrun Ha)
      as (Xi & Xs & preds & scores & i & _ & _ & Hrow).
    now destruct (label_row_inv _ _ _ _ _ _ _ _ Hrow) as (? & _ & _ & ? & _).
Qed.

Lemma output_order_witness :
  StronglySorted lt (map row_index gappy_out) /\
  Forall (fun a => gappy_rows !! row_index a = Some (raw_json a)) gappy_out.
Proof.
  apply (output_order gappy_lib order_fwd (__init__ None) gappy_rows gappy_out).
  vm_compute. reflexivity.
Defined.

(** C10.  The coercer maps "nan" to a NaN and "inf", "infinity" to an
    infinity, not to missing; so a row whose feature cells all hold such
    strings has [has_data] set, and is a row of the matrix (made of those
    NaNs and infinities) instead of being dropped. *)
Theorem nonfinite_cells_are_data (order : HashOrder) (rows : list Row)
    (n : nat) (row : Row) :
  rows !! n = Some row ->
  feature_names_of order rows <> [] ->
  (forall field, field ∈ feature_names_of order rows ->
     exists s, row !! field = Some (PyStr s) /\ s ∈ nonfinite_words) ->
  (exists v, _to_numeric (PyStr "nan") = Some v /\ is_nan v = true) /\
  _to_numeric (PyStr "inf") = Some infinity /\
  _to_numeric (PyStr "infinity") = Some infinity /\
  has_numeric (feature_names_of order rows) row = true /\
  exists k cells,
    row_indices_of order rows !! k = Some n /\
    features_of order rows !! k = Some cells /\
    length cells = length (feature_names_of order rows) /\
    Forall (fun c => is_nan c = true \/ c = infinity) cells.
Proof.
  intros Hrow Hnames Hcells.
  split; [exists nan; split; vm_compute; reflexivity|].
  split; [vm_compute; reflexivity|]. split; [vm_compute; reflexivity|].
  assert (Hcell : forall field, field ∈ feature_names_of order rows ->
            exists v, _to_numeric (row_get row field) = Some v /\
                      (is_nan v = true \/ v = infinity)).
  { intros field Hf. destruct (Hcells field Hf) as (s & Hs & Hw).
    unfold row_get. rewrite Hs. simpl default. now apply nonfinite_word_numeric. }
  assert (Hdata : has_numeric (feature_names_of order rows) row = true).
  { destruct (feature_names_of order rows) as [|f fs]; [now destruct Hnames|].
    destruct (Hcell f) as (v & Hv & _); [left|].
    simpl. rewrite Hv. reflexivity. }
  split; [exact Hdata|].
  destruct (extract_build order rows Hnames) as [-> ->].
  destruct (build_matrix_keeps (feature_names_of order rows) rows 0 n row Hrow Hdata)
    as (k & Hk & Hf).
  exists k, (map (cell row) (feature_names_of order rows)).
  repeat split; try assumption.
  - now rewrite length_map.
  - rewrite Forall_forall. intros c Hc.
    apply list_elem_of_fmap in Hc as (field & -> & Hfield).
    destruct (Hcell field Hfield) as (v & Hv & Hnf).
    unfold cell. now rewrite Hv.
Qed.

Lemma nonfinite_cells_are_data_witness :
  has_numeric (feature_names_of order_fwd nan_rows)
    {[ "x" := PyStr "nan"; "y" := PyStr "inf" ]} = true /\
  exists k cells,
    row_indices_of order_fwd nan_rows !! k = Some 0%nat /\
    features_of order_fwd nan_rows !! k = Some cells /\
    length cells = length (feature_names_of order_fwd nan_rows) /\
    Forall (fun c => is_nan c = true \/ c = infinity) cells.
Proof.
  apply (nonfinite_cells_are_data order_fwd nan_rows 0
           {[ "x" := PyStr "nan"; "y" := PyStr "inf" ]}).
  - reflexivity.
  - vm_compute. discriminate.
  - assert (Hn : feature_names_of order_fwd nan_rows = ["y"; "x"])
      by (vm_compute; reflexivity).
    rewrite Hn. intros field Hf.
    repeat (apply elem_of_cons in Hf as [->|Hf]).
    + exists "inf". split; [reflexivity | right; left].
    + exists "nan". split; [reflexivity | left].
    + inversion Hf.
Defined.

(** * Further properties of the engine *)

(** ** Selector and builder use one coercion *)

Lemma is_numeric_to_numeric (value : PyValue) :
  _is_numeric value = true <-> is_Some (_to_numeric value).
Proof.
  destruct value as [|s]; simpl.
  - split; [discriminate | intros [x Hx]; discriminate].
  - destruct (py_float (strip_currency s)); split; eauto; try discriminate.
    intros [x Hx]. discriminate.
Qed.

Lemma row_get_lookup (row : Row) (field : string) (value : PyValue) :
  row !! field = Some value -> row_get row field = value.
Proof. unfold row_get. now intros ->. Qed.

Lemma has_numeric_true (feature_names : list string) (row : Row) :
  has_numeric feature_names row = true <->
  exists field, field ∈ feature_names /\ is_Some (_to_numeric (row_get row field)).
Proof.
  unfold has_numeric. induction feature_names as [|f fs IH]; simpl.
  - split; [discriminate | intros (x & Hx & _); inversion Hx].
  - rewrite orb_true_iff, IH, bool_decide_eq_true. split.
    + intros [H|(g & Hg & H)]; [exists f | exists g]; split; auto; now constructor.
    + intros (g & Hg & H). apply elem_of_cons in Hg as [->|Hg]; eauto.
Qed.

Lemma has_numeric_perm (names1 names2 : list string) (row : Row) :
  names1 ≡ₚ names2 -> has_numeric names1 row = has_numeric names2 row.
Proof.
  intros Hp. apply eq_true_iff_eq. rewrite !has_numeric_true.
  split; intros (f & Hf & H); exists f; split; auto;
    [now rewrite <- Hp | now rewrite Hp].
Qed.

(** Some sampled row has a number under every selected name. *)
Lemma selected_feature_has_data (order : HashOrder) (rows : list Row) (name : string) :
  name ∈ feature_names_of order rows ->
  exists n row,
    rows !! n = Some row /\ (n < 50)%nat /\
    is_Some (_to_numeric (row_get row name)).
Proof.
  unfold feature_names_of.
  rewrite extract_feature_names, elem_of_order, elem_of_numeric_fields.
  intros (row & v & Hrow & Hv & Hc).
  apply elem_of_take in Hrow as (n & Hn & Hlt).
  exists n, row. split; [exact Hn|]. split; [lia|].
  rewrite (row_get_lookup _ _ _ Hv). apply is_numeric_to_numeric.
  unfold candidate in Hc. now apply andb_true_iff in Hc as [Hc _].
Qed.

(** ** Shape and content of the feature matrix *)

(** X1.  The matrix is empty exactly when no column was selected: a
    selected column is numeric in some sampled row, and that row is
    eligible.  So the test [if not features] of [detect_anomalies] fires
    on the absence of numeric columns, and on nothing else. *)
Theorem matrix_empty_iff_no_features (order : HashOrder) (rows : list Row) :
  features_of order rows = [] <-> numeric_fields rows = ∅.
Proof.
  assert (Hnames : feature_names_of order rows = [] <-> numeric_fields rows = ∅).
  { unfold feature_names_of. rewrite extract_feature_names. split.
    - intros H. apply leibniz_equiv, elements_empty_inv, Permutation_nil_r.
      rewrite <- (set_to_list_perm order (numeric_fields rows)), H. reflexivity.
    - intros ->. apply Permutation_nil_r.
      now rewrite (set_to_list_perm order ∅), elements_empty. }
  rewrite <- Hnames. split.
  - intros Hempty.
    destruct (feature_names_of order rows) as [|f fs] eqn:E; [reflexivity|].
    exfalso.
    destruct (selected_feature_has_data order rows f) as (n & row & Hn & _ & Hd).
    { rewrite E. left. }
    assert (Hne : feature_names_of order rows <> []) by congruence.
    destruct (extract_build order rows Hne) as [Hf _].
    destruct (build_matrix_keeps (feature_names_of order rows) rows 0 n row Hn)
      as (k & _ & Hk).
    { apply has_numeric_true. exists f. split; [rewrite E; left | exact Hd]. }
    rewrite <- Hf, Hempty in Hk. discriminate.
  - intros H. now destruct (extract_no_features order rows H).
Qed.

(** X2.  The matrix is rectangular, one cell per feature name in each row;
    it has as many rows as there are row indices, no more than the input has
    rows; and every recorded index points into the input. *)
Theorem matrix_shape (order : HashOrder) (rows : list Row) :
  Forall (fun r => length r = length (feature_names_of order rows))
         (features_of order rows) /\
  length (features_of order rows) = length (row_indices_of order rows) /\
  (length (features_of order rows) <= length rows)%nat /\
  Forall (fun j => j < length rows)%nat (row_indices_of order rows).
Proof.
  assert (Hidx : Forall (fun j => j < length rows)%nat (row_indices_of order rows)).
  { destruct (feature_names_of order rows) as [|f fs] eqn:E.
    - destruct (extract_no_features order rows E) as [_ ->]. constructor.
    - assert (Hne : feature_names_of order rows <> []) by congruence.
      destruct (extract_build order rows Hne) as [_ Hi]. rewrite Hi.
      rewrite Forall_forall. intros j Hj.
      apply list_elem_of_lookup in Hj as [k Hk].
      destruct (build_matrix_lookup _ _ _ _ _ Hk) as (row & _ & Hrow & _).
      apply lookup_lt_Some in Hrow. lia. }
  split; [|split; [apply extract_lengths | split; [|exact Hidx]]].
  - destruct (feature_names_of order rows) as [|f fs] eqn:E.
    + destruct (extract_no_features order rows E) as [-> _]. constructor.
    + assert (Hne : feature_names_of order rows <> []) by congruence.
      destruct (extract_build order rows Hne) as [Hf Hi].
      rewrite Forall_forall. intros r Hr.
      apply list_elem_of_lookup in Hr as [k Hk].
      assert (Hlt : (k < length (row_indices_of order rows))%nat).
      { rewrite <- extract_lengths. eapply lookup_lt_Some. exact Hk. }
      apply lookup_lt_is_Some in Hlt as [j Hj]. rewrite Hi in Hj.
      destruct (build_matrix_lookup _ _ _ _ _ Hj) as (row & _ & _ & _ & Hrow).
      rewrite <- Hf, Hk in Hrow. injection Hrow as ->.
      rewrite <- E. apply length_map.
  - rewrite extract_lengths.
    pose proof (sorted_bounded_length (length rows) (row_indices_of order rows) 0
                  (row_indices_sorted order rows)) as Hb.
    apply Hb; [|lia].
    eapply Forall_impl; [exact Hidx|]. simpl. lia.
Qed.

Lemma row_indices_lookup (order : HashOrder) (rows : list Row) (k n : nat) :
  row_indices_of order rows !! k = Some n ->
  exists row,
    rows !! n = Some row /\
    has_numeric (feature_names_of order rows) row = true /\
    features_of order rows !! k
    = Some (map (cell row) (feature_names_of order rows)).
Proof.
  destruct (feature_names_of order rows) as [|f fs] eqn:E.
  - destruct (extract_no_features order rows E) as [_ ->]. discriminate.
  - assert (Hne : feature_names_of order rows <> []) by congruence.
    destruct (extract_build order rows Hne) as [Hf Hi].
    rewrite Hi, Hf, E. intros Hk.
    destruct (build_matrix_lookup _ _ _ _ _ Hk) as (row & _ & Hrow & Hd & Hc).
    rewrite Nat.sub_0_r in Hrow. eauto.
Qed.

(** X3.  Input row [n] is a row of the matrix exactly when one of its
    feature cells coerces to a number; the matrix row then holds, feature
    by feature, the coerced value, and a NaN where the cell is absent,
    [None] or unparseable. *)
Theorem eligible_rows (order : HashOrder) (rows : list Row) (n : nat) :
  (n ∈ row_indices_of order rows <->
   exists row field,
     rows !! n = Some row /\
     field ∈ feature_names_of order rows /\
     is_Some (_to_numeric (row_get row field))) /\
  (forall k, row_indices_of order rows !! k = Some n ->
     exists row,
       rows !! n = Some row /\
       features_of order rows !! k
       = Some (map (fun field => default nan (_to_numeric (row_get row field)))
                   (feature_names_of order rows))).
Proof.
  split.
  - split.
    + intros Hn. apply list_elem_of_lookup in Hn as [k Hk].
      destruct (row_indices_lookup _ _ _ _ Hk) as (row & Hrow & Hd & _).
      apply has_numeric_true in Hd as (field & Hf & Hs). eauto.
    + intros (row & field & Hrow & Hf & Hs).
      assert (Hne : feature_names_of order rows <> []).
      { intros E. rewrite E in Hf. inversion Hf. }
      destruct (extract_build order rows Hne) as [_ ->].
      destruct (build_matrix_keeps (feature_names_of order rows) rows 0 n row Hrow)
        as (k & Hk & _).
      { apply has_numeric_true. eauto. }
      eapply list_elem_of_lookup_2. exact Hk.
  - intros k Hk.
    destruct (row_indices_lookup _ _ _ _ Hk) as (row & Hrow & _ & Hc). eauto.
Qed.

(** X4.  Every anomaly points at a row of the input, carries that very row
    as [raw_json], and the row has a number in one of the feature columns:
    a row whose feature cells are all missing is never reported. *)
Theorem anomalies_are_eligible_rows (lib : Library) (order : HashOrder)
    (self : UnsupervisedAnomalyDetector) (rows : list Row)
    (out : list Anomaly) (a : Anomaly) :
  detect_anomalies lib order self rows = Ok out ->
  a ∈ out ->
  (row_index a < length rows)%nat /\
  rows !! row_index a = Some (raw_json a) /\
  exists field,
    field ∈ feature_names_of order rows /\
    is_Some (_to_numeric (row_get (raw_json a) field)).
Proof.
  intros Hrun Ha.
  destruct (detect_anomalies_record _ _ _ _ _ _ Hrun Ha)
    as (Xi & Xs & preds & scores & i & _ & _ & Hrow).
  destruct (label_row_inv _ _ _ _ _ _ _ _ Hrow) as (score & Hidx & _ & Hraw & _).
  destruct (row_indices_lookup _ _ _ _ Hidx) as (row & Hr & Hd & _).
  rewrite Hraw in Hr. injection Hr as <-.
  split; [eapply lookup_lt_Some; exact Hraw|]. split; [exact Hraw|].
  now apply has_numeric_true.
Qed.

Lemma anomalies_are_eligible_rows_witness :
  (row_index (scenario_record (-0.25)%float "high") < length scenario_rows)%nat /\
  scenario_rows !! row_index (scenario_record (-0.25)%float "high")
  = Some (raw_json (scenario_record (-0.25)%float "high")) /\
  exists field,
    field ∈ feature_names_of order_fwd scenario_rows /\
    is_Some (_to_numeric
               (row_get (raw_json (scenario_record (-0.25)%float "high")) field)).
Proof.
  refine (anomalies_are_eligible_rows (scenario_lib (-0.25)%float) order_fwd
            (__init__ None) scenario_rows
            [scenario_record (-0.25)%float "high"] _ _ _).
  - vm_compute. reflexivity.
  - apply list_elem_of_here.
Defined.

(** ** The order of binary64 values *)

Lemma SFcompare_key (x y : spec_float) :
  x <> S754_nan -> y <> S754_nan ->
  (SFleb x y = true <-> key_le (sf_key x) (sf_key y)) /\
  (SFltb x y = true <-> key_lt (sf_key x) (sf_key y)).
Proof.
  intros Hx Hy. unfold SFleb, SFltb, key_le, key_lt.
  destruct x as [sx|sx| |sx mx ex], y as [sy|sy| |sy my ey]; try congruence;
    simpl; try (destruct sx); try (destruct sy); simpl;
    try change (Pos.compare_cont Eq mx my) with (Pos.compare mx my);
    try (destruct (Z.compare_spec ex ey); destruct (Pos.compare_spec mx my); simpl);
    (split; split; intros Hyp;
     first [reflexivity | discriminate | lia | (exfalso; lia)]).
Qed.

Lemma not_nan_spec (x : float) : is_nan x = false -> Prim2SF x <> S754_nan.
Proof.
  unfold is_nan. rewrite FloatAxioms.eqb_spec. unfold SFeqb.
  intros H E. rewrite E in H. discriminate.
Qed.

Lemma nan_spec (x : float) : is_nan x = true -> Prim2SF x = S754_nan.
Proof. intros H. unfold Prim2SF. now rewrite H. Qed.

Lemma abs_not_nan (x : float) : is_nan x = false -> is_nan (abs x) = false.
Proof.
  intros H. pose proof (not_nan_spec x H) as Hx.
  unfold is_nan. rewrite FloatAxioms.eqb_spec, abs_spec. unfold SFeqb.
  destruct (Prim2SF x) as [s|s| |s m e]; simpl; try congruence.
  now rewrite Z.compare_refl, Pos.compare_cont_refl.
Qed.

Lemma leb_key (x y : float) :
  is_nan x = false -> is_nan y = false ->
  ((x <=? y)%float = true <-> key_le (float_key x) (float_key y)) /\
  ((x <? y)%float = true <-> key_lt (float_key x) (float_key y)).
Proof.
  intros Hx Hy. rewrite leb_spec, ltb_spec.
  apply SFcompare_key; now apply not_nan_spec.
Qed.

Lemma nan_not_leb (x y : float) : is_nan x = true -> (x <=? y)%float = false.
Proof. intros H. rewrite leb_spec, (nan_spec x H). reflexivity. Qed.

(** ** numpy's argmax *)

(** The loop invariant: [mp] is the first maximum of the prefix read. *)
Lemma argmax_from_max (l pre : list float) (mp : float) (max_ind : nat) :
  no_nan (pre ++ l)%list ->
  pre !! max_ind = Some mp ->
  (forall j x, pre !! j = Some x ->
     (x <=? mp)%float = true /\ ((j < max_ind)%nat -> (x <? mp)%float = true)) ->
  exists m,
    (pre ++ l)%list !! argmax_from mp max_ind (length pre) l = Some m /\
    forall j x, (pre ++ l)%list !! j = Some x ->
      (x <=? m)%float = true /\
      ((j < argmax_from mp max_ind (length pre) l)%nat -> (x <? m)%float = true).
Proof.
  revert pre mp max_ind.
  induction l as [|x rest IH]; intros pre mp max_ind Hnan Hmp Hpre; simpl.
  - rewrite app_nil_r. eauto.
  - assert (Hx : is_nan x = false).
    { rewrite Forall_app in Hnan. destruct Hnan as [_ Hl]. now inversion Hl. }
    assert (Hm : is_nan mp = false).
    { rewrite Forall_forall in Hnan. apply Hnan, elem_of_app. left.
      eapply list_elem_of_lookup_2. exact Hmp. }
    assert (Hin : forall j y, pre !! j = Some y -> is_nan y = false).
    { intros j y Hy. rewrite Forall_forall in Hnan. apply Hnan, elem_of_app. left.
      eapply list_elem_of_lookup_2. exact Hy. }
    assert (Hlen : (max_ind < length pre)%nat) by (eapply lookup_lt_Some; exact Hmp).
    replace (pre ++ x :: rest)%list with ((pre ++ [x]) ++ rest)%list in *
      by now rewrite <- app_assoc.
    replace (S (length pre)) with (length (pre ++ [x])%list)
      by (rewrite length_app; simpl; lia).
    destruct (x <=? mp)%float eqn:Hle; simpl.
    + apply IH; [exact Hnan | now rewrite lookup_app_l |].
      intros j y Hy. destruct (decide (j < length pre)%nat) as [Hj|Hj].
      * rewrite lookup_app_l in Hy by exact Hj. auto.
      * apply lookup_lt_Some in Hy as Hj'. rewrite length_app in Hj'. simpl in Hj'.
        replace j with (length pre + 0)%nat in Hy by lia.
        rewrite lookup_app_r, Nat.add_comm, Nat.add_sub in Hy by lia.
        injection Hy as <-. split; [exact Hle | lia].
    + rewrite Hx. apply IH; [exact Hnan | |].
      * rewrite lookup_app_r, Nat.sub_diag by lia. reflexivity.
      * assert (Hlt : key_lt (float_key mp) (float_key x)).
        { destruct (leb_key x mp Hx Hm) as [Hk _].
          assert (~ key_le (float_key x) (float_key mp)) by (rewrite <- Hk; congruence).
          unfold key_le, key_lt in *. lia. }
        intros j y Hy. destruct (decide (j < length pre)%nat) as [Hj|Hj].
        -- rewrite lookup_app_l in Hy by exact Hj.
           destruct (Hpre j y Hy) as [Hym _].
           destruct (leb_key y mp (Hin j y Hy) Hm) as [Hk1 _].
           destruct (leb_key y x (Hin j y Hy) Hx) as [Hk2 Hk3].
           apply Hk1 in Hym. split; [apply Hk2 | intros _; apply Hk3];
             unfold key_le, key_lt in *; lia.
        -- apply lookup_lt_Some in Hy as Hj'. rewrite length_app in Hj'. simpl in Hj'.
           replace j with (length pre + 0)%nat in Hy |- * by lia.
           rewrite lookup_app_r, Nat.add_comm, Nat.add_sub in Hy by lia.
           injection Hy as <-. split; [|lia].
           apply (leb_key x x Hx Hx). unfold key_le. lia.
Qed.

(** On a vector without NaN, [argmax] returns the first position of the
    largest value. *)
Lemma np_argmax_max (l : list float) (k : nat) :
  no_nan l ->
  np_argmax l = Ok k ->
  exists m,
    l !! k = Some m /\
    forall j x, l !! j = Some x ->
      (x <=? m)%float = true /\ ((j < k)%nat -> (x <? m)%float = true).
Proof.
  destruct l as [|x rest]; [discriminate|]. intros Hnan. simpl.
  assert (Hx : is_nan x = false) by now inversion Hnan.
  rewrite Hx. intros [= <-].
  apply (argmax_from_max rest [x] x 0 Hnan eq_refl).
  intros [|j] y; simpl; [|discriminate]. intros [= <-]. split; [|lia].
  apply (leb_key x x Hx Hx). unfold key_le. lia.
Qed.

(** With a NaN in the vector, [argmax] returns the position of the first. *)
Lemma argmax_from_nan (l : list float) (mp : float) (max_ind i : nat) :
  Exists (fun x => is_nan x = true) l ->
  exists n m,
    argmax_from mp max_ind i l = (i + n)%nat /\
    l !! n = Some m /\ is_nan m = true /\
    forall j x, (j < n)%nat -> l !! j = Some x -> is_nan x = false.
Proof.
  revert mp max_ind i.
  induction l as [|x rest IH]; intros mp max_ind i Hex; [inversion Hex|].
  destruct (is_nan x) eqn:Hx.
  - exists 0%nat, x. simpl. rewrite (nan_not_leb x mp Hx), Hx. simpl.
    split; [lia|]. split; [reflexivity|]. split; [reflexivity|].
    intros j y Hj. lia.
  - assert (Hrest : Exists (fun x => is_nan x = true) rest).
    { inversion Hex; [congruence | assumption]. }
    assert (Hstep : forall mp' max_ind',
              exists n m,
                argmax_from mp' max_ind' (S i) rest = (i + n)%nat /\
                (x :: rest) !! n = Some m /\ is_nan m = true /\
                forall j y, (j < n)%nat -> (x :: rest) !! j = Some y ->
                            is_nan y = false).
    { intros mp' max_ind'.
      destruct (IH mp' max_ind' (S i) Hrest) as (n & m & Hk & Hm & Hn & Hbefore).
      exists (S n), m. split; [lia|]. split; [exact Hm|]. split; [exact Hn|].
      intros [|j] y Hj; simpl; [now intros [= <-]|].
      intros Hy. apply (Hbefore j y); [lia | exact Hy]. }
    simpl. rewrite Hx. destruct (x <=? mp)%float; simpl; apply Hstep.
Qed.

Lemma np_argmax_nan (l : list float) (k : nat) :
  Exists (fun x => is_nan x = true) l ->
  np_argmax l = Ok k ->
  exists m,
    l !! k = Some m /\ is_nan m = true /\
    forall j x, (j < k)%nat -> l !! j = Some x -> is_nan x = false.
Proof.
  destruct l as [|x rest]; [intros H; inversion H|]. intros Hex. simpl.
  destruct (is_nan x) eqn:Hx.
  - intros [= <-]. exists x. split; [reflexivity|]. split; [exact Hx|].
    intros j y Hj. lia.
  - intros [= <-].
    assert (Hrest : Exists (fun x => is_nan x = true) rest).
    { inversion Hex; [congruence | assumption]. }
    destruct (argmax_from_nan rest x 0 1 Hrest) as (n & m & -> & Hm & Hn & Hbefore).
    exists m. split; [exact Hm|]. split; [exact Hn|].
    intros [|j] y Hj; simpl; [now intros [= <-]|].
    intros Hy. apply (Hbefore j y); [lia | exact Hy].
Qed.

(** ** What a record holds *)

Lemma label_row_contents (rows : list Row) (row_indices : list nat)
    (feature_names : list string) (X_imputed X_scaled : matrix)
    (scores : list float) (i : nat) (a : Anomaly) :
  label_row rows row_indices feature_names X_imputed X_scaled scores i = Ok a ->
  anomaly_type a = "ml_outlier" /\
  algorithm (evidence a) = "isolation_forest" /\
  description a
  = "Statistical outlier detected by ML model. Unusual "
    ++ key_feature (evidence a) ++ ": " ++ format_2f (feature_value (evidence a)) /\
  exists row_scaled row_imputed k,
    X_scaled !! i = Some row_scaled /\
    X_imputed !! i = Some row_imputed /\
    np_argmax (np_abs row_scaled) = Ok k /\
    feature_names !! k = Some (key_feature (evidence a)) /\
    row_scaled !! k = Some (z_score_approx (evidence a)) /\
    row_imputed !! k = Some (feature_value (evidence a)).
Proof.
  unfold label_row. intros H. bind_inv H. injection H as <-. simpl.
  apply index_Ok in Hv1, Hv3, Hv4, Hv5, Hv7.
  repeat split. eauto 10.
Qed.

Lemma selected_feature_not_reserved (order : HashOrder) (rows : list Row)
    (name : string) :
  name ∈ feature_names_of order rows -> lower name ∉ reserved_names.
Proof.
  unfold feature_names_of.
  rewrite extract_feature_names, elem_of_order, elem_of_numeric_fields.
  intros (row & v & _ & _ & Hc). unfold candidate in Hc.
  apply andb_true_iff in Hc as [_ Hr]. apply negb_true_iff in Hr.
  now apply bool_decide_eq_false in Hr.
Qed.

Lemma abs_is_nan (x : float) : is_nan (abs x) = is_nan x.
Proof.
  destruct (is_nan x) eqn:Hx; [|now apply abs_not_nan].
  unfold is_nan. rewrite FloatAxioms.eqb_spec, abs_spec, (nan_spec x Hx).
  reflexivity.
Qed.

(** X5.  Every record is typed "ml_outlier" with algorithm
    "isolation_forest"; its [key_feature] is one of the selected columns,
    hence never a reserved name; [feature_value] is the imputed (unscaled)
    cell of that column in the record's matrix row; and the description
    names the column and that value with two decimals. *)
Theorem record_contents (lib : Library) (order : HashOrder)
    (self : UnsupervisedAnomalyDetector) (rows : list Row)
    (out : list Anomaly) (a : Anomaly) :
  detect_anomalies lib order self rows = Ok out ->
  a ∈ out ->
  anomaly_type a = "ml_outlier" /\
  algorithm (evidence a) = "isolation_forest" /\
  (key_feature (evidence a) ∈ feature_names_of order rows) /\
  (lower (key_feature (evidence a)) ∉ reserved_names) /\
  description a
  = "Statistical outlier detected by ML model. Unusual "
    ++ key_feature (evidence a) ++ ": " ++ format_2f (feature_value (evidence a)) /\
  exists X_imputed X_scaled predictions scores i row_imputed k,
    run_model lib self (features_of order rows)
      = Ok (X_imputed, X_scaled, predictions, scores) /\
    row_indices_of order rows !! i = Some (row_index a) /\
    X_imputed !! i = Some row_imputed /\
    feature_names_of order rows !! k = Some (key_feature (evidence a)) /\
    row_imputed !! k = Some (feature_value (evidence a)).
Proof.
  intros Hrun Ha.
  destruct (detect_anomalies_record _ _ _ _ _ _ Hrun Ha)
    as (Xi & Xs & preds & scores & i & Hm & _ & Hrow).
  destruct (label_row_inv _ _ _ _ _ _ _ _ Hrow) as (score & Hidx & _).
  destruct (label_row_contents _ _ _ _ _ _ _ _ Hrow)
    as (Ht & Halg & Hdesc & rs & ri & k & _ & Hri & _ & Hk & _ & Hv).
  assert (Hin : key_feature (evidence a) ∈ feature_names_of order rows)
    by (eapply list_elem_of_lookup_2; exact Hk).
  split; [exact Ht|]. split; [exact Halg|]. split; [exact Hin|].
  split; [exact (selected_feature_not_reserved _ _ _ Hin)|].
  split; [exact Hdesc|].
  exists Xi, Xs, preds, scores, i, ri, k. auto.
Qed.

Lemma record_contents_witness :
  anomaly_type (scenario_record (-0.25)%float "high") = "ml_outlier" /\
  algorithm (evidence (scenario_record (-0.25)%float "high")) = "isolation_forest" /\
  (key_feature (evidence (scenario_record (-0.25)%float "high"))
     ∈ feature_names_of order_fwd scenario_rows) /\
  (lower (key_feature (evidence (scenario_record (-0.25)%float "high")))
     ∉ reserved_names) /\
  description (scenario_record (-0.25)%float "high")
  = "Statistical outlier detected by ML model. Unusual "
    ++ key_feature (evidence (scenario_record (-0.25)%float "high")) ++ ": "
    ++ format_2f (feature_value (evidence (scenario_record (-0.25)%float "high"))) /\
  exists X_imputed X_scaled predictions scores i row_imputed k,
    run_model (scenario_lib (-0.25)%float) (__init__ None)
      (features_of order_fwd scenario_rows)
      = Ok (X_imputed, X_scaled, predictions, scores) /\
    row_indices_of order_fwd scenario_rows !! i
    = Some (row_index (scenario_record (-0.25)%float "high")) /\
    X_imputed !! i = Some row_imputed /\
    feature_names_of order_fwd scenario_rows !! k
    = Some (key_feature (evidence (scenario_record (-0.25)%float "high"))) /\
    row_imputed !! k
    = Some (feature_value (evidence (scenario_record (-0.25)%float "high"))).
Proof.
  refine (record_contents (scenario_lib (-0.25)%float) order_fwd (__init__ None)
            scenario_rows [scenario_record (-0.25)%float "high"] _ _ _).
  - vm_compute. reflexivity.
  - apply list_elem_of_here.
Defined.

(** X6.  The [key_feature] of a record is the column whose standardised
    value in the record's matrix row is largest in absolute value, the first
    such column on a tie, and [z_score_approx] is that value; when the row
    holds a NaN, it is the column of the first NaN instead. *)
Theorem key_feature_largest_deviation (lib : Library) (order : HashOrder)
    (self : UnsupervisedAnomalyDetector) (rows : list Row)
    (out : list Anomaly) (a : Anomaly) :
  detect_anomalies lib order self rows = Ok out ->
  a ∈ out ->
  exists X_imputed X_scaled predictions scores i row_scaled k,
    run_model lib self (features_of order rows)
      = Ok (X_imputed, X_scaled, predictions, scores) /\
    row_indices_of order rows !! i = Some (row_index a) /\
    X_scaled !! i = Some row_scaled /\
    feature_names_of order rows !! k = Some (key_feature (evidence a)) /\
    row_scaled !! k = Some (z_score_approx (evidence a)) /\
    (Forall (fun z => is_nan z = false) row_scaled ->
     forall j z, row_scaled !! j = Some z ->
       (abs z <=? abs (z_score_approx (evidence a)))%float = true /\
       ((j < k)%nat ->
        (abs z <? abs (z_score_approx (evidence a)))%float = true)) /\
    (Exists (fun z => is_nan z = true) row_scaled ->
     is_nan (z_score_approx (evidence a)) = true /\
     forall j z, (j < k)%nat -> row_scaled !! j = Some z -> is_nan z = false).
Proof.
  intros Hrun Ha.
  destruct (detect_anomalies_record _ _ _ _ _ _ Hrun Ha)
    as (Xi & Xs & preds & scores & i & Hm & _ & Hrow).
  destruct (label_row_inv _ _ _ _ _ _ _ _ Hrow) as (score & Hidx & _).
  destruct (label_row_contents _ _ _ _ _ _ _ _ Hrow)
    as (_ & _ & _ & rs & ri & k & Hrs & _ & Harg & Hk & Hz & _).
  exists Xi, Xs, preds, scores, i, rs, k.
  split; [exact Hm|]. split; [exact Hidx|]. split; [exact Hrs|].
  split; [exact Hk|]. split; [exact Hz|].
  assert (Habs : forall j z, rs !! j = Some z -> np_abs rs !! j = Some (abs z)).
  { intros j z Hj. unfold np_abs. change (map abs rs) with (abs <$> rs).
    now rewrite list_lookup_fmap, Hj. }
  split.
  - intros Hnan.
    assert (Hnan' : Forall (fun z => is_nan z = false) (np_abs rs)).
    { unfold np_abs. apply Forall_forall. intros y Hy.
      apply list_elem_of_fmap in Hy as (z & -> & Hzin).
      rewrite Forall_forall in Hnan. apply abs_not_nan. now apply Hnan. }
    destruct (np_argmax_max _ _ Hnan' Harg) as (m & Hmk & Hmax).
    rewrite (Habs _ _ Hz) in Hmk. injection Hmk as <-.
    intros j z Hj. exact (Hmax j (abs z) (Habs _ _ Hj)).
  - intros Hex.
    assert (Hex' : Exists (fun z => is_nan z = true) (np_abs rs)).
    { unfold np_abs. apply Exists_exists in Hex as (z & Hzin & Hzn).
      apply Exists_exists. exists (abs z). split.
      - apply list_elem_of_fmap. eauto.
      - now rewrite abs_is_nan. }
    destruct (np_argmax_nan _ _ Hex' Harg) as (m & Hmk & Hmn & Hbefore).
    rewrite (Habs _ _ Hz) in Hmk. injection Hmk as <-.
    rewrite abs_is_nan in Hmn. split; [exact Hmn|].
    intros j z Hj Hzj. rewrite <- abs_is_nan.
    exact (Hbefore j (abs z) Hj (Habs _ _ Hzj)).
Qed.

Lemma key_feature_largest_deviation_witness :
  exists k row_scaled,
    feature_names_of order_fwd two_column_rows !! k = Some "Amount" /\
    Forall (fun z => (abs z <=? abs 4.898979485566356)%float = true) row_scaled.
Proof.
  assert (Hrun : detect_anomalies two_column_lib order_fwd (__init__ None)
                   two_column_rows = Ok (two_column_out order_fwd))
    by (vm_compute; reflexivity).
  assert (Hout : exists a, two_column_out order_fwd = [a] /\
                   key_feature (evidence a) = "Amount" /\
                   z_score_approx (evidence a) = 4.898979485566356%float).
  { eexists. split; [vm_compute; reflexivity|]. split; reflexivity. }
  destruct Hout as (a & Hout & Hkf & Hza).
  assert (Ha : a ∈ two_column_out order_fwd) by (rewrite Hout; left).
  destruct (key_feature_largest_deviation two_column_lib order_fwd (__init__ None)
              two_column_rows (two_column_out order_fwd) a Hrun Ha)
    as (Xi & Xs & preds & scores & i & rs & k & Hm & _ & Hrs & Hk & _ & Hmax & _).
  exists k, rs. rewrite <- Hkf, <- Hza. split; [exact Hk|].
  injection Hm as _ <- _ _.
  assert (Hnan : Forall (fun z => is_nan z = false) rs).
  { apply list_elem_of_lookup_2 in Hrs.
    repeat (apply elem_of_cons in Hrs as [->|Hrs];
            [repeat constructor|]). inversion Hrs. }
  apply Forall_forall. intros z Hz. apply list_elem_of_lookup in Hz as [j Hj].
  now destruct (Hmax Hnan j z Hj).
Defined.

(** ** What the iteration order cannot change *)

Lemma build_matrix_indices_perm (names1 names2 : list string) (rows : list Row)
    (i : nat) :
  names1 ≡ₚ names2 ->
  (build_matrix names1 i rows).2 = (build_matrix names2 i rows).2.
Proof.
  intros Hp. revert i. induction rows as [|row rest IH]; intros i; simpl.
  - reflexivity.
  - rewrite !row_features_eq, (has_numeric_perm _ _ row Hp). specialize (IH (S i)).
    destruct (build_matrix names1 (S i) rest), (build_matrix names2 (S i) rest).
    simpl in IH. subst. now destruct (has_numeric names2 row).
Qed.

Lemma feature_names_perm (o1 o2 : HashOrder) (rows : list Row) :
  feature_names_of o1 rows ≡ₚ feature_names_of o2 rows.
Proof.
  unfold feature_names_of. rewrite !extract_feature_names.
  now rewrite (set_to_list_perm o1), (set_to_list_perm o2).
Qed.

Lemma row_indices_order (o1 o2 : HashOrder) (rows : list Row) :
  row_indices_of o1 rows = row_indices_of o2 rows.
Proof.
  pose proof (feature_names_perm o1 o2 rows) as Hp.
  destruct (feature_names_of o1 rows) as [|f fs] eqn:E1.
  - apply Permutation_nil_l in Hp.
    destruct (extract_no_features o1 rows E1) as [_ ->].
    now destruct (extract_no_features o2 rows (eq_sym Hp)) as [_ ->].
  - assert (H1 : feature_names_of o1 rows <> []) by congruence.
    assert (H2 : feature_names_of o2 rows <> []).
    { intros E2. rewrite E2 in Hp. now apply Permutation_nil_r in Hp. }
    destruct (extract_build o1 rows H1) as [_ ->].
    destruct (extract_build o2 rows H2) as [_ ->].
    rewrite E1. now apply build_matrix_indices_perm.
Qed.

(** X7.  Which rows are eligible does not depend on the order in which the
    feature set is listed: two runs build matrices over the same input
    rows, with the same cell under the same feature name; only the position
    of the columns may differ. *)
Theorem eligible_rows_order_independent (o1 o2 : HashOrder) (rows : list Row) :
  row_indices_of o1 rows = row_indices_of o2 rows /\
  length (features_of o1 rows) = length (features_of o2 rows) /\
  forall k r1 r2 j1 j2 name,
    features_of o1 rows !! k = Some r1 ->
    features_of o2 rows !! k = Some r2 ->
    feature_names_of o1 rows !! j1 = Some name ->
    feature_names_of o2 rows !! j2 = Some name ->
    exists x, r1 !! j1 = Some x /\ r2 !! j2 = Some x.
Proof.
  split; [apply row_indices_order|].
  split; [now rewrite !extract_lengths, (row_indices_order o1 o2)|].
  intros k r1 r2 j1 j2 name Hr1 Hr2 Hj1 Hj2.
  assert (Hlt : (k < length (row_indices_of o1 rows))%nat).
  { rewrite <- extract_lengths. eapply lookup_lt_Some. exact Hr1. }
  apply lookup_lt_is_Some in Hlt as [n Hn].
  destruct (row_indices_lookup o1 rows k n Hn) as (row & Hrow & _ & Hc1).
  rewrite (row_indices_order o1 o2) in Hn.
  destruct (row_indices_lookup o2 rows k n Hn) as (row' & Hrow' & _ & Hc2).
  rewrite Hrow in Hrow'. injection Hrow' as <-.
  rewrite Hr1 in Hc1. injection Hc1 as ->.
  rewrite Hr2 in Hc2. injection Hc2 as ->.
  exists (cell row name).
  change (map (cell row)) with (fmap (M:=list) (cell row)).
  now rewrite !list_lookup_fmap, Hj1, Hj2.
Qed.

(** X8.  With at most one selected column there is but one way to list
    the feature set, and the whole output is the same under every
    iteration order. *)
Theorem single_feature_order_independent (lib : Library) (o1 o2 : HashOrder)
    (self : UnsupervisedAnomalyDetector) (rows : list Row) :
  (size (numeric_fields rows) <= 1)%nat ->
  detect_anomalies lib o1 self rows = detect_anomalies lib o2 self rows.
Proof.
  intros Hsize.
  assert (Hnames : o1 (numeric_fields rows) = o2 (numeric_fields rows)).
  { pose proof (set_to_list_perm o1 (numeric_fields rows)) as H1.
    pose proof (set_to_list_perm o2 (numeric_fields rows)) as H2.
    unfold size, set_size in Hsize. simpl in Hsize.
    destruct (elements (numeric_fields rows)) as [|x [|y l]]; simpl in Hsize.
    - apply Permutation_nil_r in H1, H2. congruence.
    - apply Permutation_singleton_r in H1, H2. congruence.
    - lia. }
  unfold detect_anomalies, detect_try, _extract_features. now rewrite Hnames.
Qed.

Lemma single_feature_order_independent_witness :
  detect_anomalies (scenario_lib (-0.25)%float) order_fwd (__init__ None) scenario_rows
  = detect_anomalies (scenario_lib (-0.25)%float) order_rev (__init__ None)
      scenario_rows.
Proof.
  refine (single_feature_order_independent (scenario_lib (-0.25)%float)
            order_fwd order_rev (__init__ None) scenario_rows _).
  vm_compute. lia.
Defined.

(** ** Currency marks *)

Lemma str_remove_app (c : ascii) (a b : string) :
  str_remove c (a ++ b) = str_remove c a ++ str_remove c b.
Proof.
  induction a as [|x a IH]; simpl; [reflexivity|].
  destruct (Ascii.eqb x c); simpl; now rewrite IH.
Qed.

Lemma strip_currency_app (a b : string) :
  strip_currency (a ++ b) = strip_currency a ++ strip_currency b.
Proof. unfold strip_currency. now rewrite !str_remove_app. Qed.

Lemma strip_currency_mark (c : ascii) (s : string) :
  c ∈ currency_marks -> strip_currency (String c s) = strip_currency s.
Proof.
  unfold currency_marks. intros H.
  repeat (apply elem_of_cons in H as [->|H]); [reflexivity .. | inversion H].
Qed.

(** X9.  A dollar sign, a comma or a space is ignored wherever it stands
    in a cell, not only as a prefix or a thousands separator: the cell
    coerces as it would without that character. *)
Theorem currency_marks_ignored (s1 s2 : string) (c : ascii) :
  c ∈ currency_marks ->
  _to_numeric (PyStr (s1 ++ String c s2)) = _to_numeric (PyStr (s1 ++ s2)) /\
  _is_numeric (PyStr (s1 ++ String c s2)) = _is_numeric (PyStr (s1 ++ s2)).
Proof.
  intros Hc.
  assert (E : strip_currency (s1 ++ String c s2) = strip_currency (s1 ++ s2)).
  { now rewrite !strip_currency_app, (strip_currency_mark c s2 Hc). }
  simpl. now rewrite E.
Qed.

Lemma currency_marks_ignored_witness :
  _to_numeric (PyStr ("12" ++ String ","%char "3,4.5"))
  = _to_numeric (PyStr ("12" ++ "3,4.5")) /\
  _is_numeric (PyStr ("12" ++ String ","%char "3,4.5"))
  = _is_numeric (PyStr ("12" ++ "3,4.5")).
Proof.
  refine (currency_marks_ignored "12" "3,4.5" ","%char _).
  right. left.
Defined.

(** ** Faults while labelling *)

Lemma flagged_elem (predictions : list Z) (base j : nat) :
  predictions !! j = Some (-1) -> (base + j)%nat ∈ flagged base predictions.
Proof.
  revert base j. induction predictions as [|p rest IH]; intros base j; simpl.
  - discriminate.
  - destruct j as [|j]; simpl.
    + intros [= ->]. simpl. rewrite Nat.add_0_r. left.
    + intros Hj. replace (base + S j)%nat with (S base + j)%nat by lia.
      destruct (p =? -1); [right|]; now apply IH.
Qed.

Lemma label_rows_all_labelled (rows : list Row) (row_indices : list nat)
    (feature_names : list string) (X_imputed X_scaled : matrix)
    (scores : list float) (predictions : list Z) (out : list Anomaly) (j : nat) :
  label_rows rows row_indices feature_names X_imputed X_scaled scores 0 predictions
  = Ok out ->
  predictions !! j = Some (-1) ->
  exists a,
    a ∈ out /\
    label_row rows row_indices feature_names X_imputed X_scaled scores j = Ok a.
Proof.
  intros Hl Hj. apply label_rows_flagged in Hl.
  pose proof (flagged_elem predictions 0 j Hj) as Hin. simpl in Hin.
  apply list_elem_of_lookup in Hin as [k Hk].
  destruct (Forall2_lookup_l _ _ _ _ _ Hl Hk) as (a & Ha & Hrow).
  exists a. split; [eapply list_elem_of_lookup_2; exact Ha | exact Hrow].
Qed.

(** X10.  Labelling is all or nothing.  If the loop body raises for one
    row the model flagged (its index is outside [scores], [X_scaled],
    [X_imputed] or [row_indices], say), the call returns the empty list: no
    record is returned for the rows labelled before it. *)
Theorem labelling_all_or_nothing (lib : Library) (order : HashOrder)
    (self : UnsupervisedAnomalyDetector) (rows : list Row)
    (X_imputed X_scaled : matrix) (predictions : list Z) (scores : list float)
    (j : nat) (e : PyExc) :
  run_model lib self (features_of order rows)
    = Ok (X_imputed, X_scaled, predictions, scores) ->
  predictions !! j = Some (-1) ->
  label_row rows (row_indices_of order rows) (feature_names_of order rows)
    X_imputed X_scaled scores j = Raise e ->
  detect_anomalies lib order self rows = Ok [].
Proof.
  intros Hm Hj Hfail.
  destruct (detect_anomalies_returns lib order self rows) as [out Hrun].
  rewrite Hrun. f_equal.
  apply detect_anomalies_inv in Hrun as [->|Hrun]; [reflexivity|].
  destruct Hrun as (Xi & Xs & preds & sc & _ & Hm' & Hl).
  rewrite Hm in Hm'. injection Hm' as <- <- <- <-.
  destruct (label_rows_all_labelled _ _ _ _ _ _ _ _ _ Hl Hj) as (a & _ & Ha).
  congruence.
Qed.

Lemma labelling_all_or_nothing_witness :
  detect_anomalies short_scores_lib order_fwd (__init__ None) scenario_rows = Ok [].
Proof.
  refine (labelling_all_or_nothing short_scores_lib order_fwd (__init__ None)
            scenario_rows _ _ _ _ 24 IndexError _ _ _).
  - vm_compute. reflexivity.
  - vm_compute. reflexivity.
  - vm_compute. reflexivity.
Defined.

(** ** Reported rows and flagged rows *)

(** X11.  In a non-empty result the reported rows are exactly the rows the
    model flagged: every record stands for a matrix row predicted [-1], and
    every matrix row predicted [-1] has its record. *)
Theorem reported_iff_flagged (lib : Library) (order : HashOrder)
    (self : UnsupervisedAnomalyDetector) (rows : list Row)
    (out : list Anomaly) :
  detect_anomalies lib order self rows = Ok out ->
  out <> [] ->
  exists X_imputed X_scaled predictions scores,
    run_model lib self (features_of order rows)
      = Ok (X_imputed, X_scaled, predictions, scores) /\
    forall n,
      (exists a, a ∈ out /\ row_index a = n) <->
      (exists i, predictions !! i = Some (-1) /\
                 row_indices_of order rows !! i = Some n).
Proof.
  intros Hrun Hne.
  pose proof Hrun as Hinv.
  apply detect_anomalies_inv in Hinv as [->|Hinv]; [now destruct Hne|].
  destruct Hinv as (Xi & Xs & preds & scores & _ & Hm & Hl).
  exists Xi, Xs, preds, scores. split; [exact Hm|]. intros n. split.
  - intros (a & Ha & <-).
    destruct (detect_anomalies_record _ _ _ _ _ _ Hrun Ha)
      as (Xi' & Xs' & preds' & scores' & i & Hm' & Hp & Hrow).
    rewrite Hm in Hm'. injection Hm' as <- <- <- <-.
    destruct (label_row_inv _ _ _ _ _ _ _ _ Hrow) as (score & Hidx & _).
    eauto.
  - intros (i & Hp & Hidx).
    destruct (label_rows_all_labelled _ _ _ _ _ _ _ _ _ Hl Hp) as (a & Ha & Hrow).
    destruct (label_row_inv _ _ _ _ _ _ _ _ Hrow) as (score & Hidx' & _).
    exists a. split; [exact Ha | congruence].
Qed.

Lemma reported_iff_flagged_witness :
  exists predictions : list Z,
    forall n : nat,
      (exists a, a ∈ gappy_out /\ row_index a = n) <->
      (exists i, predictions !! i = Some (-1) /\
                 row_indices_of order_fwd gappy_rows !! i = Some n).
Proof.
  destruct (reported_iff_flagged gappy_lib order_fwd (__init__ None) gappy_rows
              gappy_out) as (Xi & Xs & preds & scores & _ & H).
  - vm_compute. reflexivity.
  - vm_compute. discriminate.
  - exists preds. exact H.
Defined.

(** ** Rows appended past the sample *)

Lemma build_matrix_app (feature_names : list string) (rows more : list Row)
    (i : nat) :
  build_matrix feature_names i (rows ++ more)%list
  = (((build_matrix feature_names i rows).1
      ++ (build_matrix feature_names (i + length rows) more).1)%list,
     ((build_matrix feature_names i rows).2
      ++ (build_matrix feature_names (i + length rows) more).2)%list).
Proof.
  revert i. induction rows as [|row rest IH]; intros i; simpl.
  - rewrite Nat.add_0_r. now destruct (build_matrix feature_names i more).
  - rewrite row_features_eq, (IH (S i)).
    replace (S i + length rest)%nat with (i + S (length rest))%nat by lia.
    destruct (build_matrix feature_names (S i) rest) as [fs ix].
    now destruct (has_numeric feature_names row).
Qed.

(** X12.  Once the input holds the 50 sampled rows, appending rows changes
    neither the feature names nor the matrix rows already built: the matrix
    and the row indices of the longer input extend those of the shorter. *)
Theorem appended_rows_extend_matrix (order : HashOrder) (rows more : list Row) :
  (50 <= length rows)%nat ->
  feature_names_of order (rows ++ more)%list = feature_names_of order rows /\
  features_of order rows `prefix_of` features_of order (rows ++ more)%list /\
  row_indices_of order rows `prefix_of` row_indices_of order (rows ++ more)%list.
Proof.
  intros Hlen.
  assert (Hnames : feature_names_of order (rows ++ more)%list
                   = feature_names_of order rows).
  { unfold feature_names_of. rewrite !extract_feature_names. f_equal.
    rewrite <- (numeric_fields_sample (rows ++ more)%list),
            <- (numeric_fields_sample rows).
    now rewrite take_app_le. }
  split; [exact Hnames|].
  destruct (feature_names_of order rows) as [|f fs] eqn:E.
  - destruct (extract_no_features order rows E) as [-> ->].
    split; apply prefix_nil.
  - assert (H1 : feature_names_of order rows <> []) by congruence.
    assert (H2 : feature_names_of order (rows ++ more)%list <> []) by congruence.
    destruct (extract_build order rows H1) as [-> ->].
    destruct (extract_build order (rows ++ more)%list H2) as [-> ->].
    rewrite Hnames, E, build_matrix_app. simpl.
    split; eexists; reflexivity.
Qed.

Lemma appended_rows_extend_matrix_witness :
  feature_names_of order_fwd (sample_rows ++ [amount_row "7"; amount_row ""])%list
  = feature_names_of order_fwd sample_rows /\
  features_of order_fwd sample_rows
    `prefix_of` features_of order_fwd
                  (sample_rows ++ [amount_row "7"; amount_row ""])%list /\
  row_indices_of order_fwd sample_rows
    `prefix_of` row_indices_of order_fwd
                  (sample_rows ++ [amount_row "7"; amount_row ""])%list.
Proof.
  refine (appended_rows_extend_matrix order_fwd sample_rows
            [amount_row "7"; amount_row ""] _).
  vm_compute. lia.
Defined.
